(** * kanjilearning: the worksheet generator [sheetcreator.py]

    A shallow embedding of the layout engine and of the two lookup
    functions of [sheetcreator.py], with the override table of
    [overrides.py], and the properties its specification states.

    Conventions of the embedding.
    - Lengths are Python floats in the source.  They are embedded as exact
      rationals ([Q]); equalities between lengths are stated with [==].
      Rounding is outside the model.
    - A Python [str] is a [string] holding its UTF-8 encoding; [str_chars]
      gives the characters (code points) Python iterates over.
    - The global [style] is read-only while rendering; every function that
      reads it takes it as its first argument.
    - The [FPDF] canvas is an external library.  Module [FPDF] models the
      calls the program makes by their documented cursor movement, and
      records what is drawn in an operation log.  The library's automatic
      page break is not modelled: only the program's own [add_page] calls
      start a page.
    - [romkan.to_roma], [str.capitalize], [os.getcwd], [os.path.join],
      [os.path.exists] and the page size of a fresh document are collected
      in the record [Env]. *)

From Stdlib Require Import ZArith QArith Qfield Lqa String Ascii List Bool Lia.
From Stdlib Require Import HexadecimalString.
From stdpp Require Import gmap strings list.

Local Open Scope string_scope.
Local Open Scope list_scope.
Local Open Scope Z_scope.

(** ** Python strings *)

Module Py.

(** A byte [10xxxxxx] continues the code point started before it. *)
Definition is_cont (c : ascii) : bool :=
  Z.land (Z.of_N (N_of_ascii c)) 0xC0 =? 0x80.

(** The characters of a [str]: each leading byte with the continuation
    bytes that follow it. *)
Fixpoint str_chars (s : string) : list string :=
  match s with
  | EmptyString => []
  | String c s' =>
      match s' with
      | EmptyString => [String c EmptyString]
      | String d _ =>
          if is_cont d
          then match str_chars s' with
               | h :: t => String c h :: t
               | [] => [String c EmptyString]
               end
          else String c EmptyString :: str_chars s'
      end
  end.

(** [len(s)] for a [str]. *)
Definition str_len (s : string) : nat := length (str_chars s).

(** Every byte of [k] is a continuation byte. *)
Fixpoint all_cont (k : string) : bool :=
  match k with
  | EmptyString => true
  | String d k' => is_cont d && all_cont k'
  end.

(** One character: a byte and the continuation bytes after it. *)
Definition is_char (c : string) : bool :=
  match c with
  | EmptyString => false
  | String _ k => all_cont k
  end.

(** The payload bits of a leading byte. *)
Definition lead_bits (c : ascii) : Z :=
  let b := Z.of_N (N_of_ascii c) in
  if b <? 0x80 then b
  else if b <? 0xE0 then Z.land b 0x1F
  else if b <? 0xF0 then Z.land b 0x0F
  else Z.land b 0x07.

Fixpoint cont_bits (acc : Z) (s : string) : Z :=
  match s with
  | EmptyString => acc
  | String c s' =>
      cont_bits (Z.lor (Z.shiftl acc 6) (Z.land (Z.of_N (N_of_ascii c)) 0x3F)) s'
  end.

(** [ord(c)] for a one-character [str]. *)
Definition ord (c : string) : Z :=
  match c with
  | EmptyString => 0
  | String b rest => cont_bits (lead_bits b) rest
  end.

Fixpoint zeros (n : nat) : string :=
  match n with
  | O => EmptyString
  | S n' => String "0" (zeros n')
  end.

(** ["%05x" % n] for [0 <= n]: lower-case hexadecimal, padded with zeros to
    five digits. *)
Definition fmt_05x (n : Z) : string :=
  let digits := NilEmpty.string_of_uint (N.to_hex_uint (Z.to_N n)) in
  let digits := if (n =? 0) then "0" else digits in
  zeros (5 - String.length digits)%nat +:+ digits.

(** [sep.join(l)]. *)
Fixpoint join (sep : string) (l : list string) : string :=
  match l with
  | [] => EmptyString
  | [s] => s
  | s :: l' => s +:+ sep +:+ join sep l'
  end.

(** [l[:n]]. *)
Definition slice_to {A} (n : nat) (l : list A) : list A := firstn n l.

(** ["\n"]. *)
Definition newline : string := String (ascii_of_nat 10) EmptyString.

End Py.

(** ** Style options ([class StyleOptions(IntFlag)]) *)

Definition StyleOptions := Z.

Module Style.
Definition Nothing : StyleOptions := 0x0.
Definition BigKanji : StyleOptions := 0x1.
Definition ShowRomaji : StyleOptions := 0x2.
Definition ShowRegularKanji : StyleOptions := 0x4.
Definition CrossGuide : StyleOptions := 0x8.
Definition ShowDictionary : StyleOptions := 0x10.

(** [flag in style] of an [IntFlag]: every bit of [flag] is set in [style]. *)
Definition contains (flag style : StyleOptions) : bool :=
  Z.land flag style =? flag.

(** [style |= flag]. *)
Definition enable (flag style : StyleOptions) : StyleOptions := Z.lor style flag.

(** [style &= ~flag]. *)
Definition disable (flag style : StyleOptions) : StyleOptions := Z.ldiff style flag.
End Style.

Notation "flag '∈f' style" := (Style.contains flag style) (at level 70).

(** ** Data model *)

(** [class KanjiDictionaryEntry].  [V] is the type of the stored values:
    [string] as annotated, or whatever the JSON loader put there. *)
Record KanjiDictionaryEntry_ (V : Type) := mkEntry {
  word : V;
  translations : list V
}.
Arguments mkEntry {V} _ _.
Arguments word {V} _.
Arguments translations {V} _.

(** [class KanjiData].  The attributes are not checked by the class: [S] is
    the type of the symbol and [L] of the three lists.  The annotated types
    are [S := str] and [L := List[str]]. *)
Record KanjiData_ (S L V : Type) := mkKanji {
  symbol : S;
  stroke_diagram_file : string;
  kun_readings : L;
  on_readings : L;
  meanings : L;
  dictionary_entries : list (KanjiDictionaryEntry_ V)
}.
Arguments mkKanji {S L V} _ _ _ _ _ _.
Arguments symbol {S L V} _.
Arguments stroke_diagram_file {S L V} _.
Arguments kun_readings {S L V} _.
Arguments on_readings {S L V} _.
Arguments meanings {S L V} _.
Arguments dictionary_entries {S L V} _.

Abbreviation KanjiDictionaryEntry := (KanjiDictionaryEntry_ string).
Abbreviation KanjiData := (KanjiData_ string (list string) string).

(** The four property setters. *)
Definition set_kun_readings {S L V} (val : L) (k : KanjiData_ S L V) : KanjiData_ S L V :=
  mkKanji (symbol k) (stroke_diagram_file k) val (on_readings k) (meanings k)
          (dictionary_entries k).
Definition set_on_readings {S L V} (val : L) (k : KanjiData_ S L V) : KanjiData_ S L V :=
  mkKanji (symbol k) (stroke_diagram_file k) (kun_readings k) val (meanings k)
          (dictionary_entries k).
Definition set_meanings {S L V} (val : L) (k : KanjiData_ S L V) : KanjiData_ S L V :=
  mkKanji (symbol k) (stroke_diagram_file k) (kun_readings k) (on_readings k) val
          (dictionary_entries k).
Definition set_dictionary_entries {S L V} (val : list (KanjiDictionaryEntry_ V))
    (k : KanjiData_ S L V) : KanjiData_ S L V :=
  mkKanji (symbol k) (stroke_diagram_file k) (kun_readings k) (on_readings k)
          (meanings k) val.

(** ** The page canvas ([fpdf.FPDF]) *)

(** The state of a document: the page size, the left and top margins, the
    cursor, the number of the current page (0 before the first), the font
    and the drawing colour, and the operations drawn so far, oldest first.
    Each call the program makes is a function on this state, moving the
    cursor as the library documents it.  [add_font] and [output] change
    nothing of this state. *)
Module FPDF.

Inductive XPos := LEFT | RIGHT.
Inductive YPos := TOP | NEXT.
Inductive Align := L | C.

Record Font := mkFont { family : string; emphasis : string; size : Z }.

Definition Color : Type := Z * Z * Z.

(** What has been drawn: each operation with the page it is on, its place
    and the font or colour in force. *)
Inductive DrawOp :=
| OpCell (page : nat) (x y w h : Q) (text : string) (border : Z) (align : Align)
         (font : Font) (color : Color)
| OpMultiCell (page : nat) (x y w h : Q) (text : string) (border : Z) (align : Align)
         (max_line_height : Q) (font : Font) (color : Color)
| OpLine (page : nat) (x1 y1 x2 y2 : Q) (color : Color)
| OpImage (page : nat) (name : string) (x y w h : Q) (keep_aspect_ratio : bool).

Record t := mk {
  w : Q;  h : Q;
  l_margin : Q;  t_margin : Q;
  x : Q;  y : Q;
  page : nat;
  font : Font;
  draw_color : Color;
  ops : list DrawOp
}.

Definition with_xy (pdf : t) (x' y' : Q) : t :=
  mk (w pdf) (h pdf) (l_margin pdf) (t_margin pdf) x' y' (page pdf) (font pdf)
     (draw_color pdf) (ops pdf).

Definition emit (pdf : t) (op : DrawOp) : t :=
  mk (w pdf) (h pdf) (l_margin pdf) (t_margin pdf) (x pdf) (y pdf) (page pdf) (font pdf)
     (draw_color pdf) (ops pdf ++ [op]).

(** [FPDF()]: no page yet.  The margins and the cursor start at the
    library's defaults; [renderDocument] sets both margins before it adds
    the first page, which places the cursor, so the defaults are never
    read and stand as 0 here. *)
Definition new (page_w page_h : Q) : t :=
  mk page_w page_h 0 0 0 0 O (mkFont "" "" 0) (0, 0, 0) [].

(** [pdf.l_margin = v] and [pdf.t_margin = v]. *)
Definition set_l_margin (pdf : t) (v : Q) : t :=
  mk (w pdf) (h pdf) v (t_margin pdf) (x pdf) (y pdf) (page pdf) (font pdf)
     (draw_color pdf) (ops pdf).
Definition set_t_margin (pdf : t) (v : Q) : t :=
  mk (w pdf) (h pdf) (l_margin pdf) v (x pdf) (y pdf) (page pdf) (font pdf)
     (draw_color pdf) (ops pdf).

Definition set_font (pdf : t) (family emphasis : string) (size : Z) : t :=
  mk (w pdf) (h pdf) (l_margin pdf) (t_margin pdf) (x pdf) (y pdf) (page pdf)
     (mkFont family emphasis size) (draw_color pdf) (ops pdf).

Definition set_draw_color (pdf : t) (r g b : Z) : t :=
  mk (w pdf) (h pdf) (l_margin pdf) (t_margin pdf) (x pdf) (y pdf) (page pdf) (font pdf)
     (r, g, b) (ops pdf).

(** [add_page()]: the next page, the cursor at its top left margin. *)
Definition add_page (pdf : t) : t :=
  mk (w pdf) (h pdf) (l_margin pdf) (t_margin pdf) (l_margin pdf) (t_margin pdf)
     (S (page pdf)) (font pdf) (draw_color pdf) (ops pdf).

Definition get_x (pdf : t) : Q := x pdf.
Definition get_y (pdf : t) : Q := y pdf.

(** [set_x(v)]: a negative value counts from the right edge. *)
Definition set_x (pdf : t) (v : Q) : t :=
  with_xy pdf (if Qle_bool 0 v then v else w pdf + v)%Q (y pdf).

(** [set_y(v)]: moves back to the left margin; a negative value counts from
    the bottom edge. *)
Definition set_y (pdf : t) (v : Q) : t :=
  with_xy pdf (l_margin pdf) (if Qle_bool 0 v then v else h pdf + v)%Q.

(** [ln(h)]: line break of height [h], back to the left margin. *)
Definition ln (pdf : t) (h : Q) : t :=
  with_xy pdf (l_margin pdf) (y pdf + h)%Q.

Definition moved_x (new_x : XPos) (x w : Q) : Q :=
  match new_x with LEFT => x | RIGHT => (x + w)%Q end.
Definition moved_y (new_y : YPos) (y h : Q) : Q :=
  match new_y with TOP => y | NEXT => (y + h)%Q end.

(** [cell(w, h, text, border, align, new_x, new_y)]; the library's defaults
    are [text=""], [border=0], [align=L], [new_x=RIGHT], [new_y=TOP]. *)
Definition cell (pdf : t) (w h : Q) (text : string) (border : Z) (align : Align)
    (new_x : XPos) (new_y : YPos) : t :=
  let pdf' := emit pdf (OpCell (page pdf) (x pdf) (y pdf) w h text border align
                               (font pdf) (draw_color pdf)) in
  with_xy pdf' (moved_x new_x (x pdf) w) (moved_y new_y (y pdf) h).

(** [multi_cell(w, h, text, border, align, max_line_height,
    new_x=XPos.RIGHT, new_y=YPos.TOP)]: the only form the program uses. *)
Definition multi_cell (pdf : t) (w h : Q) (text : string) (border : Z) (align : Align)
    (max_line_height : Q) : t :=
  let pdf' := emit pdf (OpMultiCell (page pdf) (x pdf) (y pdf) w h text border align
                                    max_line_height (font pdf) (draw_color pdf)) in
  with_xy pdf' (x pdf + w)%Q (y pdf).

Definition line (pdf : t) (x1 y1 x2 y2 : Q) : t :=
  emit pdf (OpLine (page pdf) x1 y1 x2 y2 (draw_color pdf)).

(** [image(name, x, y, w, h, keep_aspect_ratio)] at an explicit place: the
    cursor stays. *)
Definition image (pdf : t) (name : string) (x y w h : Q) (keep_aspect_ratio : bool) : t :=
  emit pdf (OpImage (page pdf) name x y w h keep_aspect_ratio).

End FPDF.

(** ** The environment of a run *)

Record Env := mkEnv {
  to_roma : string -> string;          (* romkan.to_roma *)
  capitalize : string -> string;       (* str.capitalize *)
  getcwd : string;                     (* os.getcwd() *)
  path_join : string -> string -> string -> string;   (* os.path.join *)
  path_exists : string -> bool;        (* os.path.exists *)
  page_w : Q;                          (* FPDF().w *)
  page_h : Q                           (* FPDF().h *)
}.

(** [float(n)] for a length or a count. *)
Definition Q_of_nat (n : nat) : Q := inject_Z (Z.of_nat n).

(** [a < b] on lengths. *)
Definition Qltb (a b : Q) : bool := negb (Qle_bool b a).

(** ** The layout engine *)

Import FPDF (LEFT, RIGHT, TOP, NEXT).
Local Open Scope Q_scope.

(** [grouper(n, iterable)]: [zip_longest] over [n] copies of one iterator.
    Each tuple takes the next [n] items; the last one is filled with
    [None].  [cur] is the tuple being filled and [k] the places left. *)
Fixpoint grouper_fill {A} (n : nat) (cur : list (option A)) (k : nat) (l : list A)
    : list (list (option A)) :=
  match l with
  | [] => match cur with
          | [] => []
          | _ => [cur ++ repeat None k]
          end
  | a :: l' =>
      match k with
      | O => []
      | S O => (cur ++ [Some a]) :: grouper_fill n [] n l'
      | S k' => grouper_fill n (cur ++ [Some a]) k' l'
      end
  end.

Definition grouper {A} (n : nat) (iterable : list A) : list (list (option A)) :=
  grouper_fill n [] n iterable.

Definition render_write_cell (style : StyleOptions) (pdf : FPDF.t) (cell_width : Q) : FPDF.t :=
  let pdf :=
    if Style.CrossGuide ∈f style then
      let pdf := FPDF.set_draw_color pdf 188 188 188 in
      let pdf := FPDF.line pdf (FPDF.x pdf) (FPDF.y pdf + (cell_width / 2))
                           (FPDF.x pdf + cell_width) (FPDF.y pdf + (cell_width / 2)) in
      FPDF.line pdf (FPDF.x pdf + (cell_width / 2)) (FPDF.y pdf)
                (FPDF.x pdf + (cell_width / 2)) (FPDF.y pdf + cell_width)
    else pdf in
  let pdf := FPDF.set_draw_color pdf 0 0 0 in
  FPDF.cell pdf cell_width cell_width "" 1 FPDF.L RIGHT TOP.

Definition render_readings (env : Env) (pdf : FPDF.t) (cell_width : Q)
    (readings : list string) : FPDF.t :=
  if (length readings =? 0)%nat then
    FPDF.cell pdf (cell_width * 3) cell_width "none" 1 FPDF.C RIGHT TOP
  else
    let kana_readings := Py.join ", " readings in
    let romaji_readings := Py.join ", " (map (to_roma env) readings) in
    FPDF.multi_cell pdf (cell_width * 3) cell_width
      (kana_readings +:+ Py.newline +:+ romaji_readings) 1 FPDF.C (cell_width / 2).

Definition render_meaning_block (env : Env) (pdf : FPDF.t) (kanji : KanjiData)
    (cell_width : Q) (cells : nat) : FPDF.t :=
  let meaningText := Py.join ", " (map (capitalize env) (meanings kanji)) in
  FPDF.multi_cell pdf (cell_width * Q_of_nat cells) cell_width meaningText 1 FPDF.C
    (cell_width / 2).

(** The loop of [render_dictionary_sub_block]; it stops at the first
    [None]. *)
Fixpoint render_dictionary_entries (pdf : FPDF.t) (originX paddingSize textLineHeight : Q)
    (cell_width : Q) (entries : list (option KanjiDictionaryEntry)) : FPDF.t :=
  match entries with
  | [] => pdf
  | None :: _ => pdf
  | Some dictionaryEntry :: entries' =>
      let pdf := FPDF.set_x pdf (originX + paddingSize) in
      let pdf := FPDF.set_font pdf "NotoSansJP" "B" 8 in
      let pdf := FPDF.cell pdf (cell_width * 3) textLineHeight (word dictionaryEntry)
                           0 FPDF.L LEFT NEXT in
      let pdf := FPDF.set_x pdf (originX + paddingSize) in
      let pdf := FPDF.set_font pdf "NotoSansJP" "" 8 in
      let translations := Py.join "; " (translations dictionaryEntry) in
      let pdf := FPDF.cell pdf (cell_width * 3) textLineHeight translations
                           0 FPDF.L LEFT NEXT in
      let pdf := FPDF.set_y pdf (FPDF.get_y pdf + paddingSize) in
      render_dictionary_entries pdf originX paddingSize textLineHeight cell_width entries'
  end.

Definition render_dictionary_sub_block (pdf : FPDF.t)
    (entries : list (option KanjiDictionaryEntry)) (column : nat) (cell_width : Q)
    : FPDF.t :=
  let originX := FPDF.get_x pdf + (Q_of_nat column * (cell_width * 4)) in
  let originY := FPDF.get_y pdf in
  let paddingSize := cell_width / 10 in
  let pdf := FPDF.set_x pdf (originX + paddingSize) in
  let pdf := FPDF.set_y pdf (originY + paddingSize) in
  let textLineHeight := cell_width / 4 in
  render_dictionary_entries pdf originX paddingSize textLineHeight cell_width entries.

(** [for i in range(len(columns))] of [render_dictionary_block], from
    column [i] on. *)
Fixpoint render_dictionary_columns (pdf : FPDF.t) (oldX oldY : Q) (cell_width : Q)
    (i : nat) (columns : list (list (option KanjiDictionaryEntry))) : FPDF.t :=
  match columns with
  | [] => pdf
  | column :: columns' =>
      let pdf := FPDF.set_x pdf oldX in
      let pdf := FPDF.set_y pdf oldY in
      let pdf := render_dictionary_sub_block pdf column i cell_width in
      render_dictionary_columns pdf oldX oldY cell_width (S i) columns'
  end.

Definition render_dictionary_block (pdf : FPDF.t) (kanji : KanjiData) (cell_width : Q)
    : FPDF.t :=
  let oldX := FPDF.get_x pdf in
  let oldY := FPDF.get_y pdf in
  let paddingSize := cell_width / 10 in
  let textLineHeight := cell_width / 4 in
  let height :=
    (Q_of_nat (Nat.min 3 (length (dictionary_entries kanji)))
       * (2 * textLineHeight + paddingSize)) + (2 * paddingSize) in
  let pdf := FPDF.cell pdf (cell_width * 12) height "" 1 FPDF.L RIGHT TOP in
  let columns := Py.slice_to 3 (grouper 3 (dictionary_entries kanji)) in
  let pdf := render_dictionary_columns pdf oldX oldY cell_width 0 columns in
  let pdf := FPDF.set_x pdf oldX in
  let pdf := FPDF.set_y pdf oldY in
  FPDF.ln pdf height.

Definition calc_kanji_block_height (style : StyleOptions) (kanji : KanjiData)
    (cell_width : Q) : Q :=
  let baseHeight :=
    if Style.BigKanji ∈f style then cell_width * 4 else cell_width * 3 in
  let baseHeight := baseHeight + 0.25 * cell_width in
  let additionalHeight :=
    if (Style.ShowDictionary ∈f style) && (0 <? length (dictionary_entries kanji))%nat
    then
      let paddingSize := cell_width / 10 in
      let textLineHeight := cell_width / 4 in
      ((2 * textLineHeight + paddingSize)
         * Q_of_nat (Nat.min (length (dictionary_entries kanji)) 3))
      + (paddingSize * 2)
    else 0 in
  baseHeight + additionalHeight.

Definition render_kanji_block (env : Env) (style : StyleOptions) (pdf : FPDF.t)
    (kanji : KanjiData) (cell_width : Q) : FPDF.t :=
  let pdf := FPDF.set_font pdf "NotoSansJP" "" 12 in
  let pdf :=
    if Style.ShowRegularKanji ∈f style then
      let pdf := FPDF.set_font pdf "NotoSansJP" "" 24 in
      let pdf := FPDF.cell pdf (cell_width * 1) cell_width (symbol kanji) 1 FPDF.C
                           RIGHT TOP in
      let pdf := FPDF.set_font pdf "NotoSansJP" "B" 12 in
      render_meaning_block env pdf kanji cell_width 5
    else
      let pdf := FPDF.set_font pdf "NotoSansJP" "B" 12 in
      render_meaning_block env pdf kanji cell_width 6 in
  let pdf := FPDF.set_font pdf "NotoSansJP" "B" 12 in
  let pdf := render_readings env pdf cell_width (on_readings kanji) in
  let pdf := render_readings env pdf cell_width (kun_readings kanji) in
  let pdf := FPDF.ln pdf cell_width in
  let kanjiBlockSize : Q := if Style.BigKanji ∈f style then 3 else 2 in
  let pdf := FPDF.cell pdf (cell_width * kanjiBlockSize) (cell_width * kanjiBlockSize)
                       "" 1 FPDF.L LEFT TOP in
  let stroke_path :=
    path_join env (getcwd env) "kanji" (stroke_diagram_file kanji +:+ ".png") in
  let pdf :=
    if path_exists env stroke_path then
      FPDF.image pdf stroke_path (FPDF.x pdf) (FPDF.y pdf)
                 (cell_width * kanjiBlockSize) (cell_width * kanjiBlockSize) true
    else
      FPDF.cell pdf (cell_width * kanjiBlockSize) (cell_width * kanjiBlockSize)
                "" 1 FPDF.L RIGHT TOP in
  let numWriteCellsInX : nat := if Style.BigKanji ∈f style then 9%nat else 10%nat in
  let pdf := FPDF.set_x pdf (cell_width * (kanjiBlockSize + 0.5)) in
  let pdf := Nat.iter numWriteCellsInX
               (fun pdf => render_write_cell style pdf cell_width) pdf in
  let pdf := FPDF.ln pdf cell_width in
  let pdf := FPDF.set_x pdf (cell_width * (kanjiBlockSize + 0.5)) in
  let pdf := Nat.iter numWriteCellsInX
               (fun pdf => render_write_cell style pdf cell_width) pdf in
  let pdf :=
    if Style.BigKanji ∈f style then
      let pdf := FPDF.ln pdf cell_width in
      let pdf := FPDF.set_x pdf (cell_width * (kanjiBlockSize + 0.5)) in
      Nat.iter numWriteCellsInX (fun pdf => render_write_cell style pdf cell_width) pdf
    else pdf in
  if (Style.ShowDictionary ∈f style) && (0 <? length (dictionary_entries kanji))%nat
  then
    let pdf := FPDF.ln pdf cell_width in
    let pdf := render_dictionary_block pdf kanji cell_width in
    FPDF.ln pdf (cell_width * 0.25)
  else
    FPDF.ln pdf (cell_width * 1.25).

(** The state of the loop of [renderDocument]: the canvas and
    [heightLeft]. *)
Definition LoopState : Type := FPDF.t * Q.

(** One turn of [for kanji in kanjis]. *)
Definition renderDocument_body (env : Env) (style : StyleOptions)
    (cell_width availHeightPerPage : Q) (st : LoopState) (kanji : KanjiData)
    : LoopState :=
  let '(pdf, heightLeft) := st in
  let kanjiBlockHeight := calc_kanji_block_height style kanji cell_width in
  let '(pdf, heightLeft) :=
    if Qltb heightLeft kanjiBlockHeight
    then (FPDF.add_page pdf, availHeightPerPage)
    else (pdf, heightLeft) in
  let pdf := render_kanji_block env style pdf kanji cell_width in
  (pdf, heightLeft - kanjiBlockHeight).

Definition renderDocument_loop (env : Env) (style : StyleOptions)
    (cell_width availHeightPerPage : Q) (kanjis : list KanjiData) (st : LoopState)
    : LoopState :=
  fold_left (renderDocument_body env style cell_width availHeightPerPage) kanjis st.

(** [cell_width], [availHeightPerPage] and the state at the head of the
    loop. *)
Definition renderDocument_setup (env : Env) : Q * Q * LoopState :=
  let pdf := FPDF.new (page_w env) (page_h env) in
  let pdf := FPDF.set_font pdf "NotoSansJP" "" 14 in
  let cell_width := FPDF.w pdf / 13 in
  let pdf := FPDF.set_l_margin pdf (cell_width / 2) in
  let pdf := FPDF.set_t_margin pdf (cell_width / 2) in
  let availHeightPerPage := FPDF.h pdf - cell_width in
  let heightLeft := availHeightPerPage in
  let pdf := FPDF.add_page pdf in
  (cell_width, availHeightPerPage, (pdf, heightLeft)).

(** [renderDocument(kanjis, path)]: the file written and its content. *)
Definition renderDocument (env : Env) (style : StyleOptions) (kanjis : list KanjiData)
    (path : string) : string * FPDF.t :=
  let '(cell_width, availHeightPerPage, st) := renderDocument_setup env in
  let '(pdf, _) := renderDocument_loop env style cell_width availHeightPerPage kanjis st in
  (path, pdf).

(** ** Overrides ([overrides.py]) *)

(** [DictionaryOverride = namedtuple("DictionaryOverride", "meanings on kun",
    defaults=(None, None, None))]. *)
Record DictionaryOverride := mkOverride {
  o_meanings : option (list string);
  o_on : option (list string);
  o_kun : option (list string)
}.

Definition overrides : gmap string DictionaryOverride :=
  <["本" := mkOverride (Some ["book"]) None None]>
  (<["年" := mkOverride (Some ["year"]) None None]>
  (<["日" := mkOverride (Some ["day"; "japan"]) None None]>
  (<["見" := mkOverride (Some ["see"; "show"]) None None]>
  (<["行" := mkOverride (Some ["going"; "journey"]) None None]> ∅)))).

(** The body of [for kanji in kanjis] of [applyOverrides], for the table
    [table]. *)
Definition applyOverrides_body (table : gmap string DictionaryOverride)
    (kanji : KanjiData) : KanjiData :=
  match table !! symbol kanji with
  | Some override =>
      let kanji :=
        match o_meanings override with
        | Some val => set_meanings val kanji
        | None => kanji
        end in
      let kanji :=
        match o_on override with
        | Some val => set_on_readings val kanji
        | None => kanji
        end in
      match o_kun override with
      | Some val => set_kun_readings val kanji
      | None => kanji
      end
  | None => kanji
  end.

(** [applyOverrides] changes the records of [kanjis] in place; the list
    after the call is returned. *)
Definition applyOverrides_with (table : gmap string DictionaryOverride)
    (kanjis : list KanjiData) : list KanjiData :=
  map (applyOverrides_body table) kanjis.

Definition applyOverrides (kanjis : list KanjiData) : list KanjiData :=
  applyOverrides_with overrides kanjis.

(** ** Lookup *)

(** What [json.load] returns. *)
#[local] Unset Elimination Schemes.
Inductive json :=
| JNull
| JBool (b : bool)
| JNumber (q : Q)
| JStr (s : string)
| JArr (items : list json)
| JObj (members : list (string * json)).
#[local] Set Elimination Schemes.

(** The exceptions the lookup code can meet. *)
Inductive exn := TypeError | ValueError | IndexError | KeyError | IOError.

(** The lines printed, without the text of the exception. *)
Inductive LogLine :=
| FailedEntry (ex : exn)      (* "Failed to parse kanji dictionary entry, skipping: %s" *)
| FailedKanji (ex : exn)      (* "Failed to read kanji, ignoring: %s" *)
| NotPresent (sym : string).  (* "Kanji %s not present in dictionary, ignoring" *)

(** What a run has done to the outside: the lines printed and the URLs
    requested, in order. *)
Record World := mkWorld { printed : list LogLine; requested : list string }.

(** The remote service: what a GET of a URL answers, given the requests made
    before; [inl] when the request or the decoding of its answer raises. *)
Definition Network : Type := list string -> string -> exn + json.

(** A computation that acts on the outside and may raise. *)
Definition M (A : Type) : Type := World -> (exn + A) * World.

Definition ret {A} (a : A) : M A := fun w => (inr a, w).
Definition raise {A} (ex : exn) : M A := fun w => (inl ex, w).
Definition bind {A B} (m : M A) (k : A -> M B) : M B :=
  fun w =>
    match m w with
    | (inr a, w') => k a w'
    | (inl ex, w') => (inl ex, w')
    end.
Definition print (line : LogLine) : M unit :=
  fun w => (inr tt, mkWorld (printed w ++ [line]) (requested w)).

(** [json.loads(requests.get(url, {}).content)]. *)
Definition requests_get_json (net : Network) (url : string) : M json :=
  fun w => (net (requested w) url, mkWorld (printed w) (requested w ++ [url])).

(** [try: m  except Exception as ex: handler(ex)]. *)
Definition try_except {A} (m : M A) (handler : exn -> M A) : M A :=
  fun w =>
    match m w with
    | (inr a, w') => (inr a, w')
    | (inl ex, w') => handler ex w'
    end.

Notation "'let*' x := m 'in' k" := (bind m (fun x => k))
  (at level 10, x pattern, m at level 100, k at level 200).

(** [for x in l: st = body(st, x)], stopping at the first exception. *)
Fixpoint for_each {A St} (body : St -> A -> M St) (l : list A) (st : St) : M St :=
  match l with
  | [] => ret st
  | x :: l' => let* st' := body st x in for_each body l' st'
  end.

Module PyJson.

(** [iter(v)]: the items a [for] loop or an unpacking sees. *)
Definition iter (v : json) : M (list json) :=
  match v with
  | JStr s => ret (map JStr (Py.str_chars s))
  | JArr items => ret items
  | JObj members => ret (map (fun kv => JStr (fst kv)) members)
  | _ => raise TypeError
  end.

(** [len(v)]. *)
Definition len (v : json) : M nat :=
  match v with
  | JStr s => ret (Py.str_len s)
  | JArr items => ret (length items)
  | JObj members => ret (length members)
  | _ => raise TypeError
  end.

(** [a, b = v]. *)
Definition unpack2 (v : json) : M (json * json) :=
  let* items := iter v in
  match items with
  | [a; b] => ret (a, b)
  | _ => raise ValueError
  end.

(** [a, b, c, d = v]. *)
Definition unpack4 (v : json) : M (json * json * json * json) :=
  let* items := iter v in
  match items with
  | [a; b; c; d] => ret (a, b, c, d)
  | _ => raise ValueError
  end.

(** [a, b, c, d, e = v]. *)
Definition unpack5 (v : json) : M (json * json * json * json * json) :=
  let* items := iter v in
  match items with
  | [a; b; c; d; e] => ret (a, b, c, d, e)
  | _ => raise ValueError
  end.

(** [v[0]]. *)
Definition first (v : json) : M json :=
  match v with
  | JStr s => match Py.str_chars s with
              | c :: _ => ret (JStr c)
              | [] => raise IndexError
              end
  | JArr items => match items with
                  | a :: _ => ret a
                  | [] => raise IndexError
                  end
  | JObj _ => raise KeyError
  | _ => raise TypeError
  end.

(** [ord(v)]: for a [str] of one character. *)
Definition ord (v : json) : M Z :=
  match v with
  | JStr c => if (Py.str_len c =? 1)%nat then ret (Py.ord c) else raise TypeError
  | _ => raise TypeError
  end.

(** [v[key]] for a [str] key. *)
Definition getitem (v : json) (key : string) : M json :=
  match v with
  | JObj members =>
      match find (fun kv => String.eqb (fst kv) key) members with
      | Some kv => ret (snd kv)
      | None => raise KeyError
      end
  | _ => raise TypeError
  end.

(** [v[:n]]. *)
Definition slice_to (n : nat) (v : json) : M json :=
  match v with
  | JStr s => ret (JStr (String.concat "" (Py.slice_to n (Py.str_chars s))))
  | JArr items => ret (JArr (Py.slice_to n items))
  | _ => raise TypeError
  end.

(** [v == JStr needle], for the items of a list. *)
Definition is_str (needle : string) (v : json) : bool :=
  match v with
  | JStr s => String.eqb s needle
  | _ => false
  end.

(** [needle in v] for a [str] needle. *)
Definition contains (needle : string) (v : json) : M bool :=
  match v with
  | JStr s => ret (match String.index 0 needle s with Some _ => true | None => false end)
  | JArr items => ret (existsb (is_str needle) items)
  | JObj members => ret (existsb (fun kv => String.eqb (fst kv) needle) members)
  | _ => raise TypeError
  end.

End PyJson.

Abbreviation RawEntry := (KanjiDictionaryEntry_ json).
Abbreviation RawKanji := (KanjiData_ json json json).

(** [KanjiData(sym)]. *)
Definition KanjiData_init (sym : json) : M RawKanji :=
  let* c := PyJson.first sym in
  let* code := PyJson.ord c in
  ret (mkKanji sym (Py.fmt_05x code) (JArr []) (JArr []) (JArr []) []).

(** The body of the [try] of [parseKanjiDictEntries]. *)
Definition parseKanjiDictEntries_try (dictEntries : list RawEntry) (entry : json)
    : M (list RawEntry) :=
  let* (word, translations) := PyJson.unpack2 entry in
  let* n := PyJson.len translations in
  if (0 <? n)%nat then
    let* translations := PyJson.iter translations in
    ret (dictEntries ++ [mkEntry word translations])
  else ret dictEntries.

(** One turn of [for entry in dictionaryEntries]. *)
Definition parseKanjiDictEntries_body (dictEntries : list RawEntry) (entry : json)
    : M (list RawEntry) :=
  try_except (parseKanjiDictEntries_try dictEntries entry)
    (fun ex => let* _ := print (FailedEntry ex) in ret dictEntries).

Definition parseKanjiDictEntries (dictionaryEntries : json) : M (list RawEntry) :=
  let dictEntries := [] in
  let* entries := PyJson.iter dictionaryEntries in
  for_each parseKanjiDictEntries_body entries dictEntries.

(** [kanjiDict[kanjiSymbol] = kanji].  A list or an object is not hashable.
    A number, a boolean or [null] would be a key, but [KanjiData(sym)] has
    raised for them before this point. *)
Definition kanjiDict_set (kanjiDict : gmap string RawKanji) (kanjiSymbol : json)
    (kanji : RawKanji) : M (gmap string RawKanji) :=
  match kanjiSymbol with
  | JStr s => ret (<[s := kanji]> kanjiDict)
  | _ => raise TypeError
  end.

(** The [try] of the first loop of [lookupKanjiSymbolsDict], up to the
    assignment to [kanjiDict]: the symbol and the record read from
    [kanjiEntry]. *)
Definition lookupKanjiSymbolsDict_read (kanjiEntry : json) : M (json * RawKanji) :=
  let* n := PyJson.len kanjiEntry in
  let* (kanjiSymbol, meanings, kunReadings, onReadings, rawDictionaryEntries) :=
    if (n =? 4)%nat then
      let* (kanjiSymbol, meanings, kunReadings, onReadings) :=
        PyJson.unpack4 kanjiEntry in
      ret (kanjiSymbol, meanings, kunReadings, onReadings, JArr [])
    else PyJson.unpack5 kanjiEntry in
  let* kanji := KanjiData_init kanjiSymbol in
  let kanji := set_kun_readings kunReadings kanji in
  let kanji := set_on_readings onReadings kanji in
  let kanji := set_meanings meanings kanji in
  let* dictEntries := parseKanjiDictEntries rawDictionaryEntries in
  let kanji := set_dictionary_entries dictEntries kanji in
  ret (kanjiSymbol, kanji).

(** The whole body of that [try]. *)
Definition lookupKanjiSymbolsDict_try (kanjiDict : gmap string RawKanji)
    (kanjiEntry : json) : M (gmap string RawKanji) :=
  let* (kanjiSymbol, kanji) := lookupKanjiSymbolsDict_read kanjiEntry in
  kanjiDict_set kanjiDict kanjiSymbol kanji.

(** One turn of [for kanjiEntry in jsonObj]. *)
Definition lookupKanjiSymbolsDict_body (kanjiDict : gmap string RawKanji)
    (kanjiEntry : json) : M (gmap string RawKanji) :=
  try_except (lookupKanjiSymbolsDict_try kanjiDict kanjiEntry)
    (fun ex => let* _ := print (FailedKanji ex) in ret kanjiDict).

(** The first loop: the dictionary built from the file's content. *)
Definition load_kanjiDict (jsonObj : json) : M (gmap string RawKanji) :=
  let kanjiDict := ∅ in
  let* entries := PyJson.iter jsonObj in
  for_each lookupKanjiSymbolsDict_body entries kanjiDict.

(** One turn of [for kanjiSym in kanjiSyms]. *)
Definition resolve_body (kanjiDict : gmap string RawKanji) (kanjiData : list RawKanji)
    (kanjiSym : string) : M (list RawKanji) :=
  match kanjiDict !! kanjiSym with
  | None => let* _ := print (NotPresent kanjiSym) in ret kanjiData
  | Some kanji => ret (kanjiData ++ [kanji])
  end.

(** [lookupKanjiSymbolsDict(dictionaryPath, kanjiSyms)], from the content
    [jsonObj] of the file at [dictionaryPath]. *)
Definition lookupKanjiSymbolsDict (jsonObj : json) (kanjiSyms : list string)
    : M (list RawKanji) :=
  let* kanjiDict := load_kanjiDict jsonObj in
  let kanjiData := [] in
  for_each (resolve_body kanjiDict) kanjiSyms kanjiData.

(** [[x for x in v if "radical" not in x and "counter" not in x]]. *)
Fixpoint filter_meanings (items : list json) : M (list json) :=
  match items with
  | [] => ret []
  | x :: items' =>
      let* radical := PyJson.contains "radical" x in
      let* keep :=
        if negb radical then
          let* counter := PyJson.contains "counter" x in ret (negb counter)
        else ret false in
      let* rest := filter_meanings items' in
      ret (if keep then x :: rest else rest)
  end.

(** One turn of [for kanjisym in kanjiSyms] of [lookupKanjiSymbolsAPI]. *)
Definition lookupKanjiSymbolsAPI_body (net : Network) (kanjis : list RawKanji)
    (kanjisym : string) : M (list RawKanji) :=
  let* kanji := KanjiData_init (JStr kanjisym) in
  let* content := requests_get_json net ("https://kanjiapi.dev/v1/kanji/" +:+ kanjisym) in
  let* v := PyJson.getitem content "kun_readings" in
  let* kun := PyJson.slice_to 3 v in
  let kanji := set_kun_readings kun kanji in
  let* v := PyJson.getitem content "on_readings" in
  let* on := PyJson.slice_to 3 v in
  let kanji := set_on_readings on kanji in
  let* v := PyJson.getitem content "meanings" in
  let* items := PyJson.iter v in
  let* kept := filter_meanings items in
  let kanji := set_meanings (JArr (Py.slice_to 3 kept)) kanji in
  ret (kanjis ++ [kanji]).

Definition lookupKanjiSymbolsAPI (net : Network) (kanjiSyms : list string)
    : M (list RawKanji) :=
  let kanjis := [] in
  for_each (lookupKanjiSymbolsAPI_body net) kanjiSyms kanjis.

(** ** Definitions that follow the specification's words *)

(** The block height as the specification words it: a base of 4 cell widths
    in big-kanji mode and 3 otherwise, a spacer of a quarter cell width, and,
    when the dictionary is shown and the record has [n] entries, [n >= 1],
    [min(3, n)] rows of two text lines (a quarter cell width each) and one
    padding (a tenth), between two paddings. *)
Definition block_height_spec (big_kanji show_dictionary : bool) (n : nat)
    (cell_width : Q) : Q :=
  let base := (if big_kanji then 4 else 3) * cell_width in
  let spacer := 0.25 * cell_width in
  let row := 2 * (cell_width / 4) + cell_width / 10 in
  let additional :=
    if show_dictionary && (1 <=? n)%nat
    then Q_of_nat (Nat.min 3 n) * row + 2 * (cell_width / 10)
    else 0 in
  base + spacer + additional.

(** ** Reading the operation log *)

Definition op_page (op : FPDF.DrawOp) : nat :=
  match op with
  | FPDF.OpCell page _ _ _ _ _ _ _ _ _ => page
  | FPDF.OpMultiCell page _ _ _ _ _ _ _ _ _ _ => page
  | FPDF.OpLine page _ _ _ _ _ => page
  | FPDF.OpImage page _ _ _ _ _ _ => page
  end.

(** The text of a cell; a line or an image has none. *)
Definition op_text (op : FPDF.DrawOp) : string :=
  match op with
  | FPDF.OpCell _ _ _ _ _ text _ _ _ _ => text
  | FPDF.OpMultiCell _ _ _ _ _ text _ _ _ _ _ => text
  | _ => ""
  end.

(** The left edge of what is drawn. *)
Definition op_x (op : FPDF.DrawOp) : Q :=
  match op with
  | FPDF.OpCell _ x _ _ _ _ _ _ _ _ => x
  | FPDF.OpMultiCell _ x _ _ _ _ _ _ _ _ _ => x
  | FPDF.OpLine _ x1 _ _ _ _ => x1
  | FPDF.OpImage _ _ x _ _ _ _ => x
  end.

(** [pdf'] is on the page [pdf] is on, with the same page size and
    margins. *)
Definition same_sheet (pdf pdf' : FPDF.t) : Prop :=
  FPDF.page pdf' = FPDF.page pdf
  /\ FPDF.w pdf' = FPDF.w pdf /\ FPDF.h pdf' = FPDF.h pdf
  /\ FPDF.l_margin pdf' = FPDF.l_margin pdf /\ FPDF.t_margin pdf' = FPDF.t_margin pdf.

(** [pdf'] comes from [pdf] by drawing [new] on the current page, without
    starting a page or changing the page geometry. *)
Definition draws (pdf pdf' : FPDF.t) (new : list FPDF.DrawOp) : Prop :=
  same_sheet pdf pdf'
  /\ FPDF.ops pdf' = FPDF.ops pdf ++ new
  /\ Forall (fun op => op_page op = FPDF.page pdf) new.

Definition draws_on (pdf pdf' : FPDF.t) : Prop := exists new, draws pdf pdf' new.

(** Where a text is drawn and what it says. *)
Definition op_xt (op : FPDF.DrawOp) : Q * string := (op_x op, op_text op).

(** The two texts of a dictionary entry, both starting at [x]: the word and,
    beneath it, the translations joined by ["; "]. *)
Definition entry_cells (x : Q) (e : KanjiDictionaryEntry) : list (Q * string) :=
  [(x, word e); (x, Py.join "; " (translations e))].

(** The left edge of the texts of column [i] of the dictionary block: four
    cell widths per column from the left margin, and the padding. *)
Definition column_x (l_margin cell_width : Q) (i : nat) : Q :=
  l_margin + Q_of_nat i * (cell_width * 4) + cell_width / 10.

(** ** Reading the outcome of a lookup *)

(** Nothing printed or requested yet. *)
Definition quiet : World := mkWorld [] [].

(** A computation whose result does not depend on what was printed or
    requested before. *)
Definition world_blind {A} (m : M A) : Prop := forall w w', fst (m w) = fst (m w').

(** A computation that prints nothing and requests nothing. *)
Definition keeps_world {A} (m : M A) : Prop := forall w, snd (m w) = w.

(** The record [kanjiEntry] is read without an exception. *)
Definition reads_ok (kanjiEntry : json) : bool :=
  match fst (lookupKanjiSymbolsDict_try ∅ kanjiEntry quiet) with
  | inr _ => true
  | inl _ => false
  end.

(** The dictionary sub-entry [entry] is parsed without an exception and
    kept. *)
Definition entry_kept (entry : json) : bool :=
  match fst (parseKanjiDictEntries_try [] entry quiet) with
  | inr (_ :: _) => true
  | _ => false
  end.

(** What reading [kanjiEntry] adds to the dictionary: nothing when it
    raises. *)
Definition loaded_of (kanjiEntry : json) : gmap string RawKanji :=
  match fst (lookupKanjiSymbolsDict_try ∅ kanjiEntry quiet) with
  | inr kanjiDict => kanjiDict
  | inl _ => ∅
  end.

(** What parsing [entry] adds to the list of entries: nothing when it
    raises. *)
Definition parsed_of (entry : json) : list RawEntry :=
  match fst (parseKanjiDictEntries_try [] entry quiet) with
  | inr dictEntries => dictEntries
  | inl _ => []
  end.

(** [len(v) <= n]. *)
Definition len_at_most (n : nat) (v : json) : bool :=
  match fst (PyJson.len v quiet) with
  | inr m => (m <=? n)%nat
  | inl _ => false
  end.

(** The three lists of a record have at most [n] items each. *)
Definition lists_at_most (n : nat) (kanji : RawKanji) : Prop :=
  len_at_most n (kun_readings kanji) = true
  /\ len_at_most n (on_readings kanji) = true
  /\ len_at_most n (meanings kanji) = true.

(** An answer of the service in the form the program expects: an object
    with the three lists, the meanings being strings. *)
Definition good_answer (content : json) : Prop :=
  exists kun on mean,
    fst (PyJson.getitem content "kun_readings" quiet) = inr (JArr kun)
    /\ fst (PyJson.getitem content "on_readings" quiet) = inr (JArr on)
    /\ fst (PyJson.getitem content "meanings" quiet) = inr (JArr mean)
    /\ Forall (fun x => exists s, x = JStr s) mean.

(** The URL requested for a symbol. *)
Definition kanji_url (kanjisym : string) : string :=
  "https://kanjiapi.dev/v1/kanji/" +:+ kanjisym.

(** What [applyOverrides] is to do to one record under the override [o]:
    each field the override gives replaces the record's, each field it
    leaves out ([None]) stays; the symbol, the stroke diagram and the
    dictionary entries are no fields of an override. *)
Definition overridden_by (o : DictionaryOverride) (kanji : KanjiData) : KanjiData :=
  mkKanji (symbol kanji) (stroke_diagram_file kanji)
          (default (kun_readings kanji) (o_kun o))
          (default (on_readings kanji) (o_on o))
          (default (meanings kanji) (o_meanings o))
          (dictionary_entries kanji).

(** An override that gives meanings only, and gives some. *)
Definition meanings_only (o : DictionaryOverride) : Prop :=
  o_on o = None /\ o_kun o = None /\ exists val, o_meanings o = Some val /\ val <> [].

(** ** Sample data *)

Module Sample.

Definition env : Env :=
  mkEnv (fun s => s) (fun s => s) "/home/user"
        (fun a b c => a +:+ "/" +:+ b +:+ "/" +:+ c) (fun _ => false) 210 297.

Definition entry (w t : string) : KanjiDictionaryEntry := mkEntry w [t].

Definition hon : KanjiData :=
  mkKanji "本" "0672c" ["もと"] ["ホン"] ["book"; "origin"]
          [entry "日本" "Japan"; entry "本屋" "bookshop"].

(** A record without dictionary entries. *)
Definition nichi : KanjiData :=
  mkKanji "日" "065e5" ["ひ"; "か"] ["ニチ"; "ジツ"] ["day"; "sun"] [].

(** A record with ten dictionary entries. *)
Definition iku : KanjiData :=
  mkKanji "行" "0884c" ["い.く"] ["コウ"] ["going"]
          [entry "行く" "to go"; entry "行う" "to do"; entry "銀行" "bank";
           entry "旅行" "travel"; entry "行動" "action"; entry "飛行" "flight";
           entry "行列" "queue"; entry "行事" "event"; entry "実行" "execution";
           entry "流行" "fashion"].

(** The first page of an A4 document, as [renderDocument] sets it up. *)
Definition page : FPDF.t :=
  FPDF.add_page
    (FPDF.set_t_margin (FPDF.set_l_margin (FPDF.new 210 297) (105 # 13)) (105 # 13)).


(** A dictionary file: two good records, then a number, a record of three
    items, and a good record whose entries are an entry, a number and an
    entry without translations. *)
Definition file : json :=
  JArr [JArr [JStr "本"; JArr [JStr "book"]; JArr [JStr "もと"]; JArr [JStr "ホン"]];
        JArr [JStr "日"; JArr [JStr "day"]; JArr [JStr "ひ"]; JArr [JStr "ニチ"]];
        JNumber 3;
        JArr [JStr "年"; JArr [JStr "year"]; JArr [JStr "とし"]];
        JArr [JStr "行"; JArr [JStr "going"]; JArr [JStr "い.く"]; JArr [JStr "コウ"];
              JArr [JArr [JStr "銀行"; JArr [JStr "bank"]];
                    JNumber 1;
                    JArr [JStr "行う"; JArr []]]]].

(** A service that answers every request with four readings and
    meanings. *)
Definition net : Network :=
  fun _ _ =>
    inr (JObj [("kun_readings", JArr [JStr "a"; JStr "b"; JStr "c"; JStr "d"]);
               ("on_readings", JArr [JStr "e"]);
               ("meanings", JArr [JStr "tree radical (no. 75)"; JStr "one"; JStr "two";
                                  JStr "three"; JStr "four"])]).

End Sample.

(** * Properties *)

(** ** Comparing lengths *)



(** ** The cursor: which calls move it down *)

Section Cursor.
Variable pdf : FPDF.t.

Lemma y_set_font f e sz : FPDF.y (FPDF.set_font pdf f e sz) = FPDF.y pdf.
Proof. reflexivity. Qed.

Lemma y_set_draw_color r g b : FPDF.y (FPDF.set_draw_color pdf r g b) = FPDF.y pdf.
Proof. reflexivity. Qed.

Lemma y_set_x v : FPDF.y (FPDF.set_x pdf v) = FPDF.y pdf.
Proof. reflexivity. Qed.

Lemma y_set_y v : 0 <= v -> FPDF.y (FPDF.set_y pdf v) = v.
Proof. intros H. apply Qle_bool_iff in H. cbn. now rewrite H. Qed.

Lemma y_ln h : FPDF.y (FPDF.ln pdf h) = FPDF.y pdf + h.
Proof. reflexivity. Qed.

Lemma y_cell w h text border align new_x new_y :
  FPDF.y (FPDF.cell pdf w h text border align new_x new_y)
  = FPDF.moved_y new_y (FPDF.y pdf) h.
Proof. reflexivity. Qed.

Lemma y_multi_cell w h text border align mlh :
  FPDF.y (FPDF.multi_cell pdf w h text border align mlh) = FPDF.y pdf.
Proof. reflexivity. Qed.

Lemma y_line x1 y1 x2 y2 : FPDF.y (FPDF.line pdf x1 y1 x2 y2) = FPDF.y pdf.
Proof. reflexivity. Qed.

Lemma y_image name x y w h k : FPDF.y (FPDF.image pdf name x y w h k) = FPDF.y pdf.
Proof. reflexivity. Qed.

Lemma y_render_write_cell style cell_width :
  FPDF.y (render_write_cell style pdf cell_width) = FPDF.y pdf.
Proof. unfold render_write_cell. now destruct (_ ∈f _). Qed.

Lemma y_render_readings env cell_width readings :
  FPDF.y (render_readings env pdf cell_width readings) = FPDF.y pdf.
Proof. unfold render_readings. now destruct (_ =? _)%nat. Qed.

Lemma y_render_meaning_block env kanji cell_width cells :
  FPDF.y (render_meaning_block env pdf kanji cell_width cells) = FPDF.y pdf.
Proof. reflexivity. Qed.

End Cursor.

Lemma y_write_cells style cell_width n pdf :
  FPDF.y (Nat.iter n (fun pdf => render_write_cell style pdf cell_width) pdf)
  = FPDF.y pdf.
Proof.
  induction n as [| n IH]; [reflexivity |].
  cbn [Nat.iter nat_rect]. now rewrite y_render_write_cell.
Qed.

(** The dictionary block ends one rectangle height below its top, whatever
    was written inside. *)
Lemma y_render_dictionary_block pdf kanji cell_width :
  0 <= FPDF.y pdf ->
  FPDF.y (render_dictionary_block pdf kanji cell_width)
  = FPDF.y pdf
    + ((Q_of_nat (Nat.min 3 (length (dictionary_entries kanji)))
          * (2 * (cell_width / 4) + cell_width / 10)) + (2 * (cell_width / 10))).
Proof.
  intros Hy. unfold render_dictionary_block. cbv zeta.
  rewrite y_ln, y_set_y; [reflexivity | exact Hy].
Qed.

(** ** Block height *)

Lemma Q_of_nat_min_comm (a b : nat) : Q_of_nat (Nat.min a b) = Q_of_nat (Nat.min b a).
Proof. now rewrite Nat.min_comm. Qed.

Lemma ltb_0_leb_1 (n : nat) : (0 <? n)%nat = (1 <=? n)%nat.
Proof. reflexivity. Qed.

Lemma calc_kanji_block_height_worded style (kanji : KanjiData) cell_width :
  calc_kanji_block_height style kanji cell_width
  == block_height_spec (Style.BigKanji ∈f style) (Style.ShowDictionary ∈f style)
       (length (dictionary_entries kanji)) cell_width.
Proof.
  unfold calc_kanji_block_height, block_height_spec. cbv zeta.
  rewrite ltb_0_leb_1, (Q_of_nat_min_comm _ 3).
  destruct (Style.BigKanji ∈f style);
    destruct ((Style.ShowDictionary ∈f style) && _); field.
Qed.

(** C2. [calc_kanji_block_height] is the height the specification words:
    4 cell widths in big-kanji mode and 3 otherwise, plus a quarter cell
    width, plus, only when the dictionary is shown and the record has an
    entry, [min(3, entries)] rows of two text lines and a padding between
    two paddings; nothing otherwise. *)
Theorem calc_kanji_block_height_spec (style : StyleOptions) (kanji : KanjiData)
    (cell_width : Q) :
  calc_kanji_block_height style kanji cell_width
  == block_height_spec (Style.BigKanji ∈f style) (Style.ShowDictionary ∈f style)
       (length (dictionary_entries kanji)) cell_width.
Proof. apply calc_kanji_block_height_worded. Qed.

Lemma y_render_kanji_block env style pdf (kanji : KanjiData) cell_width :
  0 <= cell_width ->
  0 <= FPDF.y pdf ->
  FPDF.y (render_kanji_block env style pdf kanji cell_width) - FPDF.y pdf
  == calc_kanji_block_height style kanji cell_width.
Proof.
  intros Hcw Hy.
  unfold render_kanji_block, calc_kanji_block_height. cbv zeta.
  rewrite (Q_of_nat_min_comm _ 3).
  destruct (Style.ShowRegularKanji ∈f style), (Style.BigKanji ∈f style),
    (path_exists env _),
    ((Style.ShowDictionary ∈f style) && _);
    repeat first
      [ rewrite y_ln | rewrite y_set_x | rewrite y_write_cells | rewrite y_cell
      | rewrite y_image | rewrite y_render_readings | rewrite y_set_font
      | rewrite y_render_meaning_block
      | rewrite y_render_dictionary_block ];
    cbn [FPDF.moved_y]; try field; lra.
Qed.


(** ** Everything a block draws is on the current page *)

Lemma same_sheet_refl pdf : same_sheet pdf pdf.
Proof. now repeat split. Qed.

Lemma same_sheet_trans pdf1 pdf2 pdf3 :
  same_sheet pdf1 pdf2 -> same_sheet pdf2 pdf3 -> same_sheet pdf1 pdf3.
Proof.
  intros (? & ? & ? & ? & ?) (? & ? & ? & ? & ?). repeat split; congruence.
Qed.

Lemma draws_on_refl pdf : draws_on pdf pdf.
Proof.
  exists []. split; [apply same_sheet_refl |].
  split; [now rewrite app_nil_r | constructor].
Qed.

Lemma draws_on_trans pdf1 pdf2 pdf3 :
  draws_on pdf1 pdf2 -> draws_on pdf2 pdf3 -> draws_on pdf1 pdf3.
Proof.
  intros (n1 & Hs1 & Ho1 & Hf1) (n2 & Hs2 & Ho2 & Hf2).
  exists (n1 ++ n2). split; [exact (same_sheet_trans _ _ _ Hs1 Hs2) |]. split.
  - rewrite Ho2, Ho1. now rewrite app_assoc.
  - apply Forall_app. split; [exact Hf1 |]. destruct Hs1 as [Hp1 _]. now rewrite <- Hp1.
Qed.

(** A call that draws nothing. *)
Lemma draws_on_silent pdf pdf' pdf'' :
  same_sheet pdf' pdf'' -> FPDF.ops pdf'' = FPDF.ops pdf' ->
  draws_on pdf pdf' -> draws_on pdf pdf''.
Proof.
  intros Hs Ho H. apply (draws_on_trans _ _ _ H).
  exists []. split; [exact Hs |]. split; [now rewrite app_nil_r | constructor].
Qed.

(** A call that draws one operation on the current page. *)
Lemma draws_on_emit pdf pdf' pdf'' op :
  same_sheet pdf' pdf'' -> FPDF.ops pdf'' = FPDF.ops pdf' ++ [op] ->
  op_page op = FPDF.page pdf' ->
  draws_on pdf pdf' -> draws_on pdf pdf''.
Proof.
  intros Hs Ho Hop H. apply (draws_on_trans _ _ _ H).
  exists [op]. split; [exact Hs |]. split; [exact Ho | now constructor].
Qed.

Section DrawsPrimitives.
Variables pdf pdf' : FPDF.t.
Hypothesis H : draws_on pdf pdf'.

Lemma draws_on_set_font f e sz : draws_on pdf (FPDF.set_font pdf' f e sz).
Proof. apply (draws_on_silent pdf pdf'); [now repeat split | reflexivity | exact H]. Qed.

Lemma draws_on_set_draw_color r g b : draws_on pdf (FPDF.set_draw_color pdf' r g b).
Proof. apply (draws_on_silent pdf pdf'); [now repeat split | reflexivity | exact H]. Qed.

Lemma draws_on_set_x v : draws_on pdf (FPDF.set_x pdf' v).
Proof. apply (draws_on_silent pdf pdf'); [now repeat split | reflexivity | exact H]. Qed.

Lemma draws_on_set_y v : draws_on pdf (FPDF.set_y pdf' v).
Proof. apply (draws_on_silent pdf pdf'); [now repeat split | reflexivity | exact H]. Qed.

Lemma draws_on_ln h : draws_on pdf (FPDF.ln pdf' h).
Proof. apply (draws_on_silent pdf pdf'); [now repeat split | reflexivity | exact H]. Qed.

Lemma draws_on_cell w h text border align new_x new_y :
  draws_on pdf (FPDF.cell pdf' w h text border align new_x new_y).
Proof.
  eapply (draws_on_emit pdf pdf');
    [now repeat split | reflexivity | reflexivity | exact H].
Qed.

Lemma draws_on_multi_cell w h text border align mlh :
  draws_on pdf (FPDF.multi_cell pdf' w h text border align mlh).
Proof.
  eapply (draws_on_emit pdf pdf');
    [now repeat split | reflexivity | reflexivity | exact H].
Qed.

Lemma draws_on_line x1 y1 x2 y2 : draws_on pdf (FPDF.line pdf' x1 y1 x2 y2).
Proof.
  eapply (draws_on_emit pdf pdf');
    [now repeat split | reflexivity | reflexivity | exact H].
Qed.

Lemma draws_on_image name x y w h k : draws_on pdf (FPDF.image pdf' name x y w h k).
Proof.
  eapply (draws_on_emit pdf pdf');
    [now repeat split | reflexivity | reflexivity | exact H].
Qed.

End DrawsPrimitives.

Create HintDb canvas discriminated.
#[local] Hint Resolve draws_on_refl draws_on_set_font draws_on_set_draw_color
  draws_on_set_x draws_on_set_y draws_on_ln draws_on_cell draws_on_multi_cell
  draws_on_line draws_on_image : canvas.

Ltac canvas := auto 40 with canvas nocore.

Lemma draws_on_render_write_cell pdf pdf' style cell_width :
  draws_on pdf pdf' -> draws_on pdf (render_write_cell style pdf' cell_width).
Proof. intros H. unfold render_write_cell. destruct (_ ∈f _); canvas. Qed.

Lemma draws_on_write_cells pdf pdf' style cell_width n :
  draws_on pdf pdf' ->
  draws_on pdf (Nat.iter n (fun pdf => render_write_cell style pdf cell_width) pdf').
Proof.
  intros H. induction n as [| n IH]; [exact H |].
  cbn [Nat.iter nat_rect]. now apply draws_on_render_write_cell.
Qed.

Lemma draws_on_render_readings pdf pdf' env cell_width readings :
  draws_on pdf pdf' -> draws_on pdf (render_readings env pdf' cell_width readings).
Proof. intros H. unfold render_readings. destruct (_ =? _)%nat; canvas. Qed.

Lemma draws_on_render_meaning_block pdf pdf' env kanji cell_width cells :
  draws_on pdf pdf' ->
  draws_on pdf (render_meaning_block env pdf' kanji cell_width cells).
Proof. intros H. unfold render_meaning_block. canvas. Qed.

Lemma draws_on_render_dictionary_entries pdf env_x pad tlh cell_width entries :
  forall pdf', draws_on pdf pdf' ->
  draws_on pdf (render_dictionary_entries pdf' env_x pad tlh cell_width entries).
Proof.
  induction entries as [| [e |] entries IH]; intros pdf' H; cbn; [exact H | | exact H].
  apply IH. canvas.
Qed.

Lemma draws_on_render_dictionary_columns pdf oldX oldY cell_width columns :
  forall i pdf', draws_on pdf pdf' ->
  draws_on pdf (render_dictionary_columns pdf' oldX oldY cell_width i columns).
Proof.
  induction columns as [| column columns IH]; intros i pdf' H; cbn; [exact H |].
  apply IH. unfold render_dictionary_sub_block.
  apply draws_on_render_dictionary_entries. canvas.
Qed.

Lemma draws_on_render_dictionary_block pdf pdf' kanji cell_width :
  draws_on pdf pdf' -> draws_on pdf (render_dictionary_block pdf' kanji cell_width).
Proof.
  intros H. unfold render_dictionary_block. cbv zeta.
  apply draws_on_ln, draws_on_set_y, draws_on_set_x.
  apply draws_on_render_dictionary_columns. canvas.
Qed.

#[local] Hint Resolve draws_on_write_cells draws_on_render_readings
  draws_on_render_meaning_block draws_on_render_dictionary_block : canvas.

Lemma draws_on_render_kanji_block pdf env style kanji cell_width :
  draws_on pdf (render_kanji_block env style pdf kanji cell_width).
Proof.
  unfold render_kanji_block. cbv zeta.
  destruct (Style.ShowRegularKanji ∈f style), (Style.BigKanji ∈f style),
    (path_exists env _), ((Style.ShowDictionary ∈f style) && _); canvas.
Qed.

(** ** Page breaks *)

Lemma renderDocument_loop_snoc env style cell_width avail kanjis kanji st :
  renderDocument_loop env style cell_width avail (kanjis ++ [kanji]) st
  = renderDocument_body env style cell_width avail
      (renderDocument_loop env style cell_width avail kanjis st) kanji.
Proof. unfold renderDocument_loop. now rewrite fold_left_app. Qed.


Lemma Q_of_nat_nonneg n : 0 <= Q_of_nat n.
Proof. change 0 with (inject_Z 0). unfold Q_of_nat. rewrite <- Zle_Qle. lia. Qed.

Lemma calc_kanji_block_height_nonneg style (kanji : KanjiData) cell_width :
  0 <= cell_width -> 0 <= calc_kanji_block_height style kanji cell_width.
Proof.
  intros Hcw. rewrite calc_kanji_block_height_worded. unfold block_height_spec. cbv zeta.
  set (n := Q_of_nat _). pose proof (Q_of_nat_nonneg (Nat.min 3 (length (dictionary_entries kanji)))) as Hn.
  fold n in Hn.
  assert (Hrow : 0 <= 2 * (cell_width / 4) + cell_width / 10).
  { assert (0 <= cell_width / 4) by (apply Qle_shift_div_l; lra).
    assert (0 <= cell_width / 10) by (apply Qle_shift_div_l; lra). lra. }
  assert (0 <= cell_width / 10) by (apply Qle_shift_div_l; lra).
  pose proof (Qmult_le_0_compat _ _ Hn Hrow) as Hrows.
  set (rows := n * _) in *.
  destruct (Style.BigKanji ∈f style), ((Style.ShowDictionary ∈f style) && _); lra.
Qed.

(** The accounting of [renderDocument] is the place of the cursor: at the
    head of each turn of the loop the cursor is below the top margin by what
    has been taken from [heightLeft] on this page. *)
Lemma renderDocument_accounting env style (kanjis : list KanjiData) :
  0 <= page_w env ->
  let '(cell_width, availHeightPerPage, st0) := renderDocument_setup env in
  let st := renderDocument_loop env style cell_width availHeightPerPage kanjis st0 in
  0 <= FPDF.y (fst st)
  /\ FPDF.t_margin (fst st) = cell_width / 2
  /\ FPDF.y (fst st) == FPDF.t_margin (fst st) + (availHeightPerPage - snd st).
Proof.
  intros Hw. unfold renderDocument_setup. cbv zeta.
  set (cell_width := FPDF.w _ / 13).
  set (avail := FPDF.h _ - cell_width).
  assert (Hcw : 0 <= cell_width).
  { unfold cell_width. cbn [FPDF.w FPDF.set_font FPDF.new].
    apply Qle_shift_div_l; lra. }
  assert (Hhalf : 0 <= cell_width / 2) by (apply Qle_shift_div_l; lra).
  induction kanjis as [| kanji kanjis IH] using rev_ind.
  - cbn. repeat split; [exact Hhalf | ring].
  - rewrite renderDocument_loop_snoc.
    destruct (renderDocument_loop _ _ _ _ kanjis _) as [pdf1 heightLeft1].
    cbn [fst snd] in IH. destruct IH as (Hy1 & Ht1 & Hacc1).
    cbn [renderDocument_body].
    set (height := calc_kanji_block_height style kanji cell_width).
    pose proof (calc_kanji_block_height_nonneg style kanji cell_width Hcw) as Hh.
    fold height in Hh.
    destruct (Qltb heightLeft1 height); cbn [fst snd].
    + destruct (draws_on_render_kanji_block (FPDF.add_page pdf1) env style kanji
                  cell_width) as (block & (_ & _ & _ & _ & Ht) & _).
      pose proof (y_render_kanji_block env style (FPDF.add_page pdf1) kanji cell_width
                    Hcw) as Hadv.
      cbn [FPDF.add_page FPDF.y FPDF.t_margin] in Hadv, Ht. fold height in Hadv.
      rewrite Ht1 in Hadv. specialize (Hadv Hhalf).
      rewrite Ht, Ht1. repeat split; lra.
    + destruct (draws_on_render_kanji_block pdf1 env style kanji cell_width)
        as (block & (_ & _ & _ & _ & Ht) & _).
      pose proof (y_render_kanji_block env style pdf1 kanji cell_width Hcw Hy1) as Hadv.
      fold height in Hadv. rewrite Ht, Ht1 in *. repeat split; lra.
Qed.

(** ** Readings *)

(** C5. [render_readings] draws one cell.  Its text is exactly ["none"] for
    an empty list of readings; otherwise it is the readings joined by
    [", "], a line break, and their romanised forms joined by [", "]. *)
Theorem render_readings_text (env : Env) (pdf : FPDF.t) (cell_width : Q)
    (readings : list string) :
  exists op,
    FPDF.ops (render_readings env pdf cell_width readings) = FPDF.ops pdf ++ [op]
    /\ op_text op =
       match readings with
       | [] => "none"
       | _ => Py.join ", " readings +:+ Py.newline
              +:+ Py.join ", " (map (to_roma env) readings)
       end.
Proof.
  unfold render_readings. destruct readings as [| r readings]; cbn [length Nat.eqb].
  - eexists. split; reflexivity.
  - eexists. split; reflexivity.
Qed.

(** ** The dictionary flag *)

(** Setting or clearing the bits of [g] does not change whether a flag [f]
    that shares no bit with [g] is contained. *)
Lemma land_lor_disjoint (f g s : Z) : Z.land f g = 0%Z -> Z.land f (Z.lor s g) = Z.land f s.
Proof.
  intros Hd. rewrite Z.land_lor_distr_r, Hd. apply Z.lor_0_r.
Qed.

Lemma land_ldiff_disjoint (f g s : Z) :
  Z.land f g = 0%Z -> Z.land f (Z.ldiff s g) = Z.land f s.
Proof.
  intros Hd. apply Z.bits_inj'. intros n Hn.
  assert (Hb : Z.testbit f n && Z.testbit g n = false).
  { rewrite <- Z.land_spec, Hd. apply Z.bits_0. }
  rewrite !Z.land_spec, Z.ldiff_spec.
  destruct (Z.testbit f n), (Z.testbit g n), (Z.testbit s n); cbn in *; congruence.
Qed.

Lemma contains_enable_other (f g s : StyleOptions) :
  Z.land f g = 0%Z -> (f ∈f Style.enable g s) = (f ∈f s).
Proof. intros Hd. unfold Style.contains, Style.enable. now rewrite land_lor_disjoint. Qed.

Lemma contains_disable_other (f g s : StyleOptions) :
  Z.land f g = 0%Z -> (f ∈f Style.disable g s) = (f ∈f s).
Proof. intros Hd. unfold Style.contains, Style.disable. now rewrite land_ldiff_disjoint. Qed.

Lemma iter_ext {A} (f g : A -> A) (n : nat) (a : A) :
  (forall x, f x = g x) -> Nat.iter n f a = Nat.iter n g a.
Proof.
  intros Hfg. induction n as [| n IH]; [reflexivity |].
  rewrite !Nat.iter_succ. now rewrite IH, Hfg.
Qed.

(** For a record without dictionary entries, a block is drawn the same
    under two styles that agree on the three flags drawing reads besides
    [ShowDictionary], and has the same height. *)
Lemma no_entries_same_block env style1 style2 pdf (kanji : KanjiData) cell_width :
  dictionary_entries kanji = [] ->
  (Style.BigKanji ∈f style1) = (Style.BigKanji ∈f style2) ->
  (Style.ShowRegularKanji ∈f style1) = (Style.ShowRegularKanji ∈f style2) ->
  (Style.CrossGuide ∈f style1) = (Style.CrossGuide ∈f style2) ->
  render_kanji_block env style1 pdf kanji cell_width
  = render_kanji_block env style2 pdf kanji cell_width
  /\ calc_kanji_block_height style1 kanji cell_width
     = calc_kanji_block_height style2 kanji cell_width.
Proof.
  intros He Hb Hr Hc.
  assert (Hw : forall p, render_write_cell style1 p cell_width
                         = render_write_cell style2 p cell_width).
  { intros p. unfold render_write_cell. now rewrite Hc. }
  unfold render_kanji_block, calc_kanji_block_height. cbv zeta.
  rewrite He, Hb, Hr. cbn [length Nat.ltb Nat.leb]. rewrite !andb_false_r.
  split; [| reflexivity].
  destruct (Style.ShowRegularKanji ∈f style2), (Style.BigKanji ∈f style2),
    (path_exists env _);
    repeat rewrite (iter_ext _ _ _ _ Hw); reflexivity.
Qed.

(** C3. For a record without dictionary entries, enabling [ShowDictionary]
    changes nothing: the block is drawn as with the flag disabled (the same
    canvas results, so no dictionary block is drawn), and its computed
    height is the height with the flag disabled, the base height and the
    spacer alone. *)
Theorem show_dictionary_no_entries (env : Env) (style : StyleOptions) (pdf : FPDF.t)
    (kanji : KanjiData) (cell_width : Q) :
  dictionary_entries kanji = [] ->
  let on := Style.enable Style.ShowDictionary style in
  let off := Style.disable Style.ShowDictionary style in
  (Style.ShowDictionary ∈f on) = true
  /\ (Style.ShowDictionary ∈f off) = false
  /\ render_kanji_block env on pdf kanji cell_width
     = render_kanji_block env off pdf kanji cell_width
  /\ calc_kanji_block_height on kanji cell_width
     = calc_kanji_block_height off kanji cell_width
  /\ calc_kanji_block_height on kanji cell_width
     == block_height_spec (Style.BigKanji ∈f style) false 0 cell_width.
Proof.
  intros He on off.
  assert (Hon : (Style.ShowDictionary ∈f on) = true).
  { unfold on, Style.contains, Style.enable. apply Z.eqb_eq.
    rewrite Z.land_comm, Z.land_lor_distr_l, Z.land_diag.
    apply Z.bits_inj'. intros n Hn.
    rewrite Z.lor_spec, Z.land_spec. now destruct (Z.testbit _ n), (Z.testbit _ n). }
  assert (Hoff : (Style.ShowDictionary ∈f off) = false).
  { unfold off, Style.contains, Style.disable. apply Z.eqb_neq. intros Heq.
    assert (Hbit : Z.testbit (Z.land Style.ShowDictionary
                                (Z.ldiff style Style.ShowDictionary)) 4 = true)
      by now rewrite Heq.
    rewrite Z.land_spec, Z.ldiff_spec in Hbit.
    replace (Z.testbit Style.ShowDictionary 4) with true in Hbit by reflexivity.
    cbn [negb andb] in Hbit. rewrite andb_false_r in Hbit. discriminate. }
  destruct (no_entries_same_block env on off pdf kanji cell_width He) as [Hr Hc].
  { unfold on, off.
    now rewrite contains_enable_other, contains_disable_other. }
  { unfold on, off.
    now rewrite contains_enable_other, contains_disable_other. }
  { unfold on, off.
    now rewrite contains_enable_other, contains_disable_other. }
  repeat split; try assumption.
  rewrite calc_kanji_block_height_worded, He.
  unfold on. rewrite contains_enable_other by reflexivity.
  unfold block_height_spec. cbn [length Nat.leb]. now rewrite !andb_false_r.
Qed.

(** ** The dictionary block *)

(** Nine entries fill three columns of three, and what follows them is in
    no column. *)
Lemma columns_of_nine {A} (es rest : list A) :
  length es = 9%nat ->
  Py.slice_to 3 (grouper 3 (es ++ rest))
  = [map Some (firstn 3 (skipn 0 es)); map Some (firstn 3 (skipn 3 es));
     map Some (firstn 3 (skipn 6 es))].
Proof.
  intros Hlen.
  do 9 (destruct es as [| ? es]; [discriminate Hlen |]).
  destruct es; [reflexivity | discriminate Hlen].
Qed.

Lemma firstn_skipn_firstn {A} (n m k : nat) (l : list A) :
  (n + m <= k)%nat -> firstn n (skipn m (firstn k l)) = firstn n (skipn m l).
Proof.
  intros Hle. rewrite skipn_firstn_comm, firstn_firstn. f_equal. lia.
Qed.

Lemma l_margin_render_dictionary_entries originX pad tlh cell_width entries :
  forall pdf,
  FPDF.l_margin (render_dictionary_entries pdf originX pad tlh cell_width entries)
  = FPDF.l_margin pdf.
Proof.
  induction entries as [| [e |] entries IH]; intros pdf; cbn; [reflexivity | | reflexivity].
  now rewrite IH.
Qed.

(** A column draws, for each of its entries in turn, the word and the
    translations, at the column's left edge. *)
Lemma xt_render_dictionary_entries originX pad tlh cell_width es :
  0 <= originX + pad ->
  forall pdf,
  map op_xt (FPDF.ops (render_dictionary_entries pdf originX pad tlh cell_width
                         (map Some es)))
  = map op_xt (FPDF.ops pdf) ++ flat_map (entry_cells (originX + pad)) es.
Proof.
  intros Hx. apply Qle_bool_iff in Hx.
  induction es as [| e es IH]; intros pdf; cbn [map flat_map render_dictionary_entries].
  - now rewrite app_nil_r.
  - rewrite IH. cbn [FPDF.ops FPDF.set_y FPDF.with_xy FPDF.cell FPDF.emit FPDF.set_font
                     FPDF.set_x FPDF.x FPDF.y FPDF.page FPDF.font FPDF.draw_color].
    rewrite Hx. rewrite !map_app. cbn [map op_xt op_x op_text entry_cells].
    rewrite <- !app_assoc. reflexivity.
Qed.

Lemma xt_render_dictionary_sub_block pdf es column cell_width :
  0 <= cell_width -> 0 <= FPDF.l_margin pdf -> FPDF.x pdf = FPDF.l_margin pdf ->
  map op_xt (FPDF.ops (render_dictionary_sub_block pdf (map Some es) column cell_width))
  = map op_xt (FPDF.ops pdf)
    ++ flat_map (entry_cells (column_x (FPDF.l_margin pdf) cell_width column)) es.
Proof.
  intros Hcw Hl Hx. unfold render_dictionary_sub_block, FPDF.get_x. cbv zeta.
  rewrite Hx. rewrite xt_render_dictionary_entries; [reflexivity |].
  assert (0 <= Q_of_nat column).
  { change 0 with (inject_Z 0). unfold Q_of_nat. rewrite <- Zle_Qle. lia. }
  assert (0 <= Q_of_nat column * (cell_width * 4)) by (apply Qmult_le_0_compat; lra).
  set (t := Q_of_nat column * (cell_width * 4)) in *.
  assert (0 <= cell_width / 10) by (apply Qle_shift_div_l; lra).
  lra.
Qed.

Lemma l_margin_render_dictionary_sub_block pdf entries column cell_width :
  FPDF.l_margin (render_dictionary_sub_block pdf entries column cell_width)
  = FPDF.l_margin pdf.
Proof.
  unfold render_dictionary_sub_block. cbv zeta.
  now rewrite l_margin_render_dictionary_entries.
Qed.

(** The step of the loop over the columns: back to the top left corner of
    the rectangle, then the column. *)
Lemma xt_render_dictionary_column pdf oldX oldY es column cell_width :
  0 <= cell_width -> 0 <= FPDF.l_margin pdf ->
  let pdf' :=
    render_dictionary_sub_block (FPDF.set_y (FPDF.set_x pdf oldX) oldY) (map Some es)
      column cell_width in
  FPDF.l_margin pdf' = FPDF.l_margin pdf
  /\ map op_xt (FPDF.ops pdf')
     = map op_xt (FPDF.ops pdf)
       ++ flat_map (entry_cells (column_x (FPDF.l_margin pdf) cell_width column)) es.
Proof.
  intros Hcw Hl pdf'. unfold pdf'. split.
  - now rewrite l_margin_render_dictionary_sub_block.
  - now rewrite xt_render_dictionary_sub_block.
Qed.

(** C4. For a record with more than 9 dictionary entries,
    [render_dictionary_block] puts the first nine in three columns, the
    entries 1-3, 4-6 and 7-9, and no other entry in any column: it draws
    what it draws for the first nine alone, namely the rectangle and then,
    column by column, each entry's word and translations at the left edge of
    its column. *)
Theorem render_dictionary_block_first_nine (pdf : FPDF.t) (kanji : KanjiData)
    (cell_width : Q) :
  (9 < length (dictionary_entries kanji))%nat ->
  0 <= cell_width -> 0 <= FPDF.l_margin pdf ->
  let entries := dictionary_entries kanji in
  let column (i : nat) := firstn 3 (skipn (3 * i) entries) in
  let x (i : nat) := column_x (FPDF.l_margin pdf) cell_width i in
  Py.slice_to 3 (grouper 3 entries)
  = [map Some (column 0%nat); map Some (column 1%nat); map Some (column 2%nat)]
  /\ column 0%nat ++ column 1%nat ++ column 2%nat = firstn 9 entries
  /\ render_dictionary_block pdf kanji cell_width
     = render_dictionary_block pdf (set_dictionary_entries (firstn 9 entries) kanji)
         cell_width
  /\ map op_xt (FPDF.ops (render_dictionary_block pdf kanji cell_width))
     = map op_xt (FPDF.ops pdf)
       ++ (FPDF.x pdf, "")
       :: flat_map (entry_cells (x 0%nat)) (column 0%nat)
       ++ flat_map (entry_cells (x 1%nat)) (column 1%nat)
       ++ flat_map (entry_cells (x 2%nat)) (column 2%nat).
Proof.
  intros Hlen Hcw Hl entries column x.
  change (9 < length entries)%nat in Hlen.
  assert (Hnine : length (firstn 9 entries) = 9%nat) by (rewrite length_firstn; lia).
  assert (Hcols : Py.slice_to 3 (grouper 3 entries)
                  = [map Some (column 0%nat); map Some (column 1%nat);
                     map Some (column 2%nat)]).
  { rewrite <- (firstn_skipn 9 entries) at 1.
    rewrite (columns_of_nine _ _ Hnine). unfold column. cbn [Nat.mul Nat.add].
    now rewrite !firstn_skipn_firstn by lia. }
  assert (Hcols9 : Py.slice_to 3 (grouper 3 (firstn 9 entries))
                   = Py.slice_to 3 (grouper 3 entries)).
  { rewrite Hcols. rewrite <- (app_nil_r (firstn 9 entries)).
    rewrite (columns_of_nine _ _ Hnine). unfold column. cbn [Nat.mul Nat.add].
    now rewrite !firstn_skipn_firstn by lia. }
  split; [exact Hcols |]. split.
  { unfold column. cbn [Nat.mul Nat.add].
    rewrite <- (firstn_skipn 3 (firstn 9 entries)).
    rewrite <- (firstn_skipn 3 (skipn 3 (firstn 9 entries))).
    rewrite firstn_firstn, skipn_skipn. cbn [Nat.min Nat.add].
    rewrite !firstn_skipn_firstn by lia.
    rewrite skipn_firstn_comm. cbn [Nat.sub]. reflexivity. }
  split.
  { unfold render_dictionary_block. cbv zeta.
    cbn [dictionary_entries set_dictionary_entries]. fold entries.
    rewrite Hcols9, Hnine.
    replace (Nat.min 3 (length entries)) with (Nat.min 3 9) by lia.
    reflexivity. }
  unfold render_dictionary_block. cbv zeta. fold entries. rewrite Hcols.
  cbn [FPDF.ops FPDF.ln FPDF.set_y FPDF.set_x FPDF.with_xy].
  cbn [render_dictionary_columns].
  set (pdf0 := FPDF.cell pdf _ _ _ _ _ _ _).
  assert (Hl0 : FPDF.l_margin pdf0 = FPDF.l_margin pdf) by reflexivity.
  destruct (xt_render_dictionary_column pdf0 (FPDF.get_x pdf) (FPDF.get_y pdf)
              (column 0%nat) 0 cell_width Hcw) as [Hl1 Hx1]; [now rewrite Hl0 |].
  set (pdf1 := render_dictionary_sub_block _ _ 0 _) in *.
  destruct (xt_render_dictionary_column pdf1 (FPDF.get_x pdf) (FPDF.get_y pdf)
              (column 1%nat) 1 cell_width Hcw) as [Hl2 Hx2]; [now rewrite Hl1, Hl0 |].
  set (pdf2 := render_dictionary_sub_block _ _ 1 _) in *.
  destruct (xt_render_dictionary_column pdf2 (FPDF.get_x pdf) (FPDF.get_y pdf)
              (column 2%nat) 2 cell_width Hcw) as [Hl3 Hx3];
    [now rewrite Hl2, Hl1, Hl0 |].
  rewrite Hx3, Hx2, Hx1, Hl2, Hl1, Hl0.
  unfold pdf0. cbn [FPDF.cell FPDF.emit FPDF.with_xy FPDF.ops].
  rewrite map_app. cbn [map op_xt op_x op_text].
  rewrite <- !app_assoc. reflexivity.
Qed.

(** ** Overrides *)

Lemma applyOverrides_body_spec table (kanji : KanjiData) :
  applyOverrides_body table kanji
  = match table !! symbol kanji with
    | Some o => overridden_by o kanji
    | None => kanji
    end.
Proof.
  unfold applyOverrides_body. destruct (table !! symbol kanji) as [o |]; [| reflexivity].
  destruct kanji as [sym file kun on mean ents], o as [[m |] [n |] [k |]]; reflexivity.
Qed.

Lemma overrides_meanings_only : map_Forall (fun _ o => meanings_only o) overrides.
Proof.
  unfold overrides.
  repeat (apply map_Forall_insert_2;
          [split; [reflexivity |]; split; [reflexivity |];
           eexists; split; [reflexivity | discriminate] |]).
  apply map_Forall_empty.
Qed.

(** C6. [applyOverrides] keeps the length and the order of the list, and
    record by record: a record whose symbol is not in the table is
    unchanged; a record whose symbol is in the table gets the fields its
    override gives (those that are not [None]) and keeps the fields its
    override leaves out; with an override that gives meanings only, the
    meanings are replaced and the on- and kun-readings (like the symbol, the
    stroke diagram and the dictionary entries) are unchanged.  Every
    override of [overrides.py] gives meanings only, and a non-empty list of
    them, so for that table no record's readings change. *)
Theorem applyOverrides_frame (table : gmap string DictionaryOverride)
    (kanjis : list KanjiData) :
  Forall2 (fun kanji kanji' =>
             match table !! symbol kanji with
             | None => kanji' = kanji
             | Some o =>
                 kanji' = overridden_by o kanji
                 /\ (o_on o = None -> o_kun o = None ->
                     forall val, o_meanings o = Some val ->
                     kanji' = set_meanings val kanji
                     /\ on_readings kanji' = on_readings kanji
                     /\ kun_readings kanji' = kun_readings kanji
                     /\ meanings kanji' = val)
             end)
          kanjis (applyOverrides_with table kanjis)
  /\ applyOverrides kanjis = applyOverrides_with overrides kanjis
  /\ map_Forall (fun _ o => meanings_only o) overrides
  /\ Forall2 (fun kanji kanji' =>
                on_readings kanji' = on_readings kanji
                /\ kun_readings kanji' = kun_readings kanji
                /\ (overrides !! symbol kanji = None -> kanji' = kanji))
             kanjis (applyOverrides kanjis).
Proof.
  split; [| split; [reflexivity | split; [exact overrides_meanings_only |]]].
  - unfold applyOverrides_with. apply Forall2_fmap_r, Forall_Forall2_diag, Forall_forall.
    intros kanji _. unfold compose. rewrite applyOverrides_body_spec.
    destruct (table !! symbol kanji) as [o |]; [| reflexivity].
    split; [reflexivity |]. intros Hon Hkun val Hm.
    unfold overridden_by. rewrite Hon, Hkun, Hm. cbn [default].
    destruct kanji; repeat split; reflexivity.
  - unfold applyOverrides, applyOverrides_with.
    apply Forall2_fmap_r, Forall_Forall2_diag, Forall_forall.
    intros kanji _. unfold compose. rewrite applyOverrides_body_spec.
    destruct (overrides !! symbol kanji) as [o |] eqn:Ho.
    + destruct (overrides_meanings_only _ _ Ho) as (Hon & Hkun & val & Hm & _).
      unfold overridden_by. rewrite Hon, Hkun. cbn. repeat split. discriminate.
    + repeat split.
Qed.

(** ** Computations that print and may raise *)

Lemma bind_inr {A B} (m : M A) (k : A -> M B) w b w' :
  bind m k w = (inr b, w') ->
  exists a w1, m w = (inr a, w1) /\ k a w1 = (inr b, w').
Proof.
  unfold bind. destruct (m w) as [[ex | a] w1]; [discriminate |].
  intros H. now exists a, w1.
Qed.

Lemma bind_ok {A B} (m : M A) (k : A -> M B) w a w1 :
  m w = (inr a, w1) -> bind m k w = k a w1.
Proof. intros H. unfold bind. now rewrite H. Qed.

Lemma bind_raised {A B} (m : M A) (k : A -> M B) w ex w1 :
  m w = (inl ex, w1) -> bind m k w = (inl ex, w1).
Proof. intros H. unfold bind. now rewrite H. Qed.

Lemma ret_inr {A} (a b : A) w w' : ret a w = (inr b, w') -> a = b /\ w = w'.
Proof. unfold ret. intros H. now inversion H. Qed.

Lemma blind_ret {A} (a : A) : world_blind (ret a).
Proof. easy. Qed.

Lemma blind_raise {A} ex : world_blind (@raise A ex).
Proof. easy. Qed.

Lemma blind_print line : world_blind (print line).
Proof. easy. Qed.

Lemma blind_bind {A B} (m : M A) (k : A -> M B) :
  world_blind m -> (forall a, world_blind (k a)) -> world_blind (bind m k).
Proof.
  intros Hm Hk w w'. unfold bind. specialize (Hm w w').
  destruct (m w) as [[ex | a] w1], (m w') as [[ex' | a'] w1']; cbn in Hm;
    try discriminate; inversion Hm; subst; [reflexivity | apply Hk].
Qed.

Lemma blind_try_except {A} (m : M A) (handler : exn -> M A) :
  world_blind m -> (forall ex, world_blind (handler ex)) ->
  world_blind (try_except m handler).
Proof.
  intros Hm Hh w w'. unfold try_except. specialize (Hm w w').
  destruct (m w) as [[ex | a] w1], (m w') as [[ex' | a'] w1']; cbn in Hm;
    try discriminate; inversion Hm; subst; [apply Hh | reflexivity].
Qed.

Lemma blind_for_each {A B} (body : B -> A -> M B) (l : list A) :
  (forall st x, world_blind (body st x)) -> forall st, world_blind (for_each body l st).
Proof.
  intros Hb. induction l as [| x l IH]; intros st; cbn [for_each].
  - apply blind_ret.
  - apply blind_bind; [apply Hb | exact IH].
Qed.

Create HintDb blind discriminated.
#[local] Hint Resolve blind_ret blind_raise blind_print : blind.
#[local] Hint Extern 2 (world_blind (bind _ _)) => apply blind_bind; [| intros] : blind.
#[local] Hint Extern 2 (world_blind (try_except _ _)) =>
  apply blind_try_except; [| intros] : blind.
#[local] Hint Extern 2 (world_blind (for_each _ _ _)) =>
  apply blind_for_each; intros : blind.
#[local] Hint Extern 3 (world_blind (match ?x with _ => _ end)) => destruct x : blind.

Ltac blind := auto 30 with blind nocore.

Lemma blind_iter v : world_blind (PyJson.iter v).
Proof. destruct v; cbn; blind. Qed.

Lemma blind_len v : world_blind (PyJson.len v).
Proof. destruct v; cbn; blind. Qed.

Lemma blind_first v : world_blind (PyJson.first v).
Proof. destruct v; cbn; blind. Qed.

Lemma blind_ord v : world_blind (PyJson.ord v).
Proof. destruct v; cbn; blind. Qed.

#[local] Hint Resolve blind_iter blind_len blind_first blind_ord : blind.

Lemma blind_unpack2 v : world_blind (PyJson.unpack2 v).
Proof. unfold PyJson.unpack2. blind. Qed.

Lemma blind_unpack4 v : world_blind (PyJson.unpack4 v).
Proof. unfold PyJson.unpack4. blind. Qed.

Lemma blind_unpack5 v : world_blind (PyJson.unpack5 v).
Proof. unfold PyJson.unpack5. blind. Qed.

Lemma blind_KanjiData_init sym : world_blind (KanjiData_init sym).
Proof. unfold KanjiData_init. blind. Qed.

#[local] Hint Resolve blind_unpack2 blind_unpack4 blind_unpack5 blind_KanjiData_init
  : blind.

Lemma blind_parse_try acc entry : world_blind (parseKanjiDictEntries_try acc entry).
Proof. unfold parseKanjiDictEntries_try. blind. Qed.

Lemma blind_parse_body acc entry : world_blind (parseKanjiDictEntries_body acc entry).
Proof.
  unfold parseKanjiDictEntries_body.
  apply blind_try_except; [apply blind_parse_try | intros; blind].
Qed.

Lemma blind_parseKanjiDictEntries raw : world_blind (parseKanjiDictEntries raw).
Proof.
  unfold parseKanjiDictEntries. apply blind_bind; [blind |].
  intros entries. apply blind_for_each. intros. apply blind_parse_body.
Qed.

#[local] Hint Resolve blind_parseKanjiDictEntries : blind.

Lemma blind_read kanjiEntry : world_blind (lookupKanjiSymbolsDict_read kanjiEntry).
Proof. unfold lookupKanjiSymbolsDict_read. blind. Qed.

Lemma blind_kanjiDict_set d sym kanji : world_blind (kanjiDict_set d sym kanji).
Proof. destruct sym; cbn; blind. Qed.

Lemma blind_try d kanjiEntry : world_blind (lookupKanjiSymbolsDict_try d kanjiEntry).
Proof.
  unfold lookupKanjiSymbolsDict_try.
  apply blind_bind; [apply blind_read | intros [sym kanji]; apply blind_kanjiDict_set].
Qed.

Lemma blind_body d kanjiEntry : world_blind (lookupKanjiSymbolsDict_body d kanjiEntry).
Proof.
  unfold lookupKanjiSymbolsDict_body.
  apply blind_try_except; [apply blind_try | intros; blind].
Qed.

(** ** Characters of a string *)

Lemma str_chars_head c s :
  exists k t, Py.str_chars (String c s) = String c k :: t
              /\ Py.all_cont k = true /\ Forall (fun ch => Py.is_char ch = true) t.
Proof.
  revert c. induction s as [| d r IH]; intros c.
  - exists EmptyString, []. repeat split. constructor.
  - destruct (IH d) as (k & t & Hs & Hk & Ht).
    cbn [Py.str_chars]. cbn [Py.str_chars] in Hs. rewrite Hs.
    destruct (Py.is_cont d) eqn:Hd.
    + exists (String d k), t. repeat split; [| exact Ht]. cbn. now rewrite Hd, Hk.
    + exists EmptyString, (String d k :: t). repeat split. now constructor.
Qed.

Lemma str_chars_is_char s : Forall (fun ch => Py.is_char ch = true) (Py.str_chars s).
Proof.
  destruct s as [| c s]; [constructor |].
  destruct (str_chars_head c s) as (k & t & Hs & Hk & Ht). rewrite Hs. now constructor.
Qed.

(** A character is one character long. *)
Lemma str_chars_char c : Py.is_char c = true -> Py.str_chars c = [c].
Proof.
  destruct c as [| b k]; [discriminate |]. cbn [Py.is_char].
  revert b. induction k as [| d k IH]; intros b Hk; [reflexivity |].
  cbn [Py.all_cont] in Hk. apply andb_true_iff in Hk as [Hd Hk].
  specialize (IH d Hk). cbn [Py.str_chars]. cbn [Py.str_chars] in IH.
  now rewrite Hd, IH.
Qed.

Lemma str_len_cons c s : (Py.str_len (String c s) <= S (Py.str_len s))%nat.
Proof.
  unfold Py.str_len. destruct s as [| d r]; [cbn; lia |].
  destruct (str_chars_head d r) as (k & t & Hs & _ & _).
  cbn [Py.str_chars]. cbn [Py.str_chars] in Hs. rewrite Hs.
  destruct (Py.is_cont d); cbn [length]; lia.
Qed.

Lemma str_len_char_app b k rest :
  Py.all_cont k = true ->
  (Py.str_len (String b (k +:+ rest)) <= S (Py.str_len rest))%nat.
Proof.
  revert b. induction k as [| d k IH]; intros b Hk.
  - apply str_len_cons.
  - cbn [Py.all_cont] in Hk. apply andb_true_iff in Hk as [Hd Hk].
    specialize (IH d Hk). unfold Py.str_len in *.
    change (String d k +:+ rest) with (String d (k +:+ rest)).
    cbn [Py.str_chars]. cbn [Py.str_chars] in IH.
    rewrite Hd.
    destruct (str_chars_head d (k +:+ rest)) as (k' & t & Hs & _ & _).
    cbn [Py.str_chars] in Hs. rewrite Hs in *. exact IH.
Qed.

Lemma append_empty_r s : s +:+ "" = s.
Proof.
  induction s as [| c s IH]; [reflexivity |].
  change (String c s +:+ "") with (String c (s +:+ "")). now rewrite IH.
Qed.

(** A string made of [n] characters has at most [n] characters. *)
Lemma str_len_concat cs :
  Forall (fun ch => Py.is_char ch = true) cs ->
  (Py.str_len (String.concat "" cs) <= length cs)%nat.
Proof.
  induction 1 as [| c cs Hc Hcs IH]; [cbn; lia |].
  destruct c as [| b k]; [discriminate |]. cbn [Py.is_char] in Hc.
  cbn [String.concat length]. destruct cs as [| c' cs'].
  - rewrite <- (append_empty_r k). etransitivity; [now apply str_len_char_app |].
    cbn. lia.
  - change (String b k +:+ "" +:+ String.concat "" (c' :: cs'))
      with (String b (k +:+ String.concat "" (c' :: cs'))).
    etransitivity; [now apply str_len_char_app |].
    apply le_n_S. exact IH.
Qed.

(** ** Computations that leave the outside alone *)

Lemma keeps_ret {A} (a : A) : keeps_world (ret a).
Proof. easy. Qed.

Lemma keeps_raise {A} ex : keeps_world (@raise A ex).
Proof. easy. Qed.

Lemma keeps_bind {A B} (m : M A) (k : A -> M B) :
  keeps_world m -> (forall a, keeps_world (k a)) -> keeps_world (bind m k).
Proof.
  intros Hm Hk w. unfold bind. specialize (Hm w).
  destruct (m w) as [[ex | a] w1]; cbn in Hm; subst; [reflexivity | apply Hk].
Qed.

Create HintDb keeps discriminated.
#[local] Hint Resolve keeps_ret keeps_raise : keeps.
#[local] Hint Extern 2 (keeps_world (bind _ _)) => apply keeps_bind; [| intros] : keeps.
#[local] Hint Extern 3 (keeps_world (match ?x with _ => _ end)) => destruct x : keeps.

Ltac keeps := auto 30 with keeps nocore.

Lemma keeps_iter v : keeps_world (PyJson.iter v).
Proof. destruct v; cbn; keeps. Qed.

Lemma keeps_len v : keeps_world (PyJson.len v).
Proof. destruct v; cbn; keeps. Qed.

Lemma keeps_first v : keeps_world (PyJson.first v).
Proof. destruct v; cbn; keeps. Qed.

Lemma keeps_ord v : keeps_world (PyJson.ord v).
Proof. destruct v; cbn; keeps. Qed.

Lemma keeps_getitem v key : keeps_world (PyJson.getitem v key).
Proof. destruct v; cbn; keeps. Qed.

Lemma keeps_slice_to n v : keeps_world (PyJson.slice_to n v).
Proof. destruct v; cbn; keeps. Qed.

Lemma keeps_contains needle v : keeps_world (PyJson.contains needle v).
Proof. destruct v; cbn; keeps. Qed.

#[local] Hint Resolve keeps_iter keeps_len keeps_first keeps_ord keeps_getitem
  keeps_slice_to keeps_contains : keeps.

Lemma keeps_unpack2 v : keeps_world (PyJson.unpack2 v).
Proof. unfold PyJson.unpack2. keeps. Qed.

Lemma keeps_KanjiData_init sym : keeps_world (KanjiData_init sym).
Proof. unfold KanjiData_init. keeps. Qed.

Lemma keeps_filter_meanings items : keeps_world (filter_meanings items).
Proof. induction items as [| x items IH]; cbn [filter_meanings]; keeps. Qed.

Lemma keeps_parse_try acc entry : keeps_world (parseKanjiDictEntries_try acc entry).
Proof. unfold parseKanjiDictEntries_try. pose proof keeps_unpack2. keeps. Qed.

(** Such a computation, when its result does not depend on the outside
    either, is a value. *)
Lemma run_value {A} (m : M A) w :
  keeps_world m -> world_blind m -> m w = (fst (m quiet), w).
Proof.
  intros Hk Hb. rewrite (surjective_pairing (m w)). now rewrite Hk, (Hb w quiet).
Qed.

(** A computation that keeps the outside, run to a result. *)
Lemma kept {A} (m : M A) w a w' : keeps_world m -> m w = (a, w') -> w' = w.
Proof. intros Hk H. specialize (Hk w). rewrite H in Hk. exact Hk. Qed.

(** ** Dictionary sub-entries *)

Lemma parse_try_acc acc entry :
  fst (parseKanjiDictEntries_try acc entry quiet)
  = match fst (parseKanjiDictEntries_try [] entry quiet) with
    | inl ex => inl ex
    | inr new => inr (acc ++ new)
    end.
Proof.
  unfold parseKanjiDictEntries_try, bind.
  destruct (PyJson.unpack2 entry quiet) as [[ex | [word tr]] w1]; [reflexivity |].
  destruct (PyJson.len tr w1) as [[ex | n] w2]; [reflexivity |].
  destruct (0 <? n)%nat; [| cbn; now rewrite app_nil_r].
  destruct (PyJson.iter tr w2) as [[ex | its] w3]; reflexivity.
Qed.

Lemma parsed_of_length entry :
  length (parsed_of entry) = if entry_kept entry then 1%nat else 0%nat.
Proof.
  unfold parsed_of, entry_kept, parseKanjiDictEntries_try, bind.
  destruct (PyJson.unpack2 entry quiet) as [[ex | [word tr]] w1]; [reflexivity |].
  destruct (PyJson.len tr w1) as [[ex | n] w2]; [reflexivity |].
  destruct (0 <? n)%nat; [| reflexivity].
  destruct (PyJson.iter tr w2) as [[ex | its] w3]; reflexivity.
Qed.

Lemma parsed_of_dropped entry : entry_kept entry = false -> parsed_of entry = [].
Proof.
  intros H. pose proof (parsed_of_length entry) as Hl. rewrite H in Hl.
  now destruct (parsed_of entry).
Qed.

(** One turn of the loop adds what the entry parses to, and never raises. *)
Lemma parse_body_spec acc entry w :
  exists w', parseKanjiDictEntries_body acc entry w = (inr (acc ++ parsed_of entry), w').
Proof.
  unfold parseKanjiDictEntries_body, try_except.
  rewrite (run_value _ w (keeps_parse_try acc entry) (blind_parse_try acc entry)).
  rewrite parse_try_acc. unfold parsed_of.
  destruct (fst (parseKanjiDictEntries_try [] entry quiet)) as [ex | new].
  - eexists. cbn. now rewrite app_nil_r.
  - now eexists.
Qed.

Lemma parse_loop_spec entries :
  forall acc w,
  exists w', for_each parseKanjiDictEntries_body entries acc w
             = (inr (acc ++ flat_map parsed_of entries), w').
Proof.
  induction entries as [| entry entries IH]; intros acc w; cbn [for_each flat_map].
  - exists w. now rewrite app_nil_r.
  - destruct (parse_body_spec acc entry w) as [w1 H1].
    rewrite (bind_ok _ _ _ _ _ H1).
    destruct (IH (acc ++ parsed_of entry) w1) as [w2 H2].
    exists w2. now rewrite H2, app_assoc.
Qed.

Lemma parsed_of_filter entries :
  flat_map parsed_of (List.filter entry_kept entries) = flat_map parsed_of entries
  /\ length (flat_map parsed_of entries) = length (List.filter entry_kept entries).
Proof.
  induction entries as [| entry entries [IH1 IH2]]; [easy |].
  cbn [List.filter flat_map]. rewrite length_app, IH2, parsed_of_length.
  destruct (entry_kept entry) eqn:Hk.
  - cbn [flat_map length]. now rewrite IH1.
  - now rewrite (parsed_of_dropped _ Hk).
Qed.

Lemma parseKanjiDictEntries_spec entries w :
  exists w', parseKanjiDictEntries (JArr entries) w = (inr (flat_map parsed_of entries), w').
Proof.
  unfold parseKanjiDictEntries. cbn [PyJson.iter].
  rewrite (bind_ok _ _ w entries w) by reflexivity.
  exact (parse_loop_spec entries [] w).
Qed.

(** ** Records of the dictionary file *)

Lemma KanjiData_init_symbol sym w kanji w' :
  KanjiData_init sym w = (inr kanji, w') -> symbol kanji = sym.
Proof.
  unfold KanjiData_init. intros H.
  apply bind_inr in H as (c & w1 & _ & H).
  apply bind_inr in H as (code & w2 & _ & H).
  apply ret_inr in H as [<- _]. reflexivity.
Qed.

Lemma read_symbol kanjiEntry w sym kanji w' :
  lookupKanjiSymbolsDict_read kanjiEntry w = (inr (sym, kanji), w') -> symbol kanji = sym.
Proof.
  unfold lookupKanjiSymbolsDict_read. intros H.
  apply bind_inr in H as (n & w1 & _ & H).
  apply bind_inr in H as ([[[[s m] k] o] raw] & w2 & _ & H).
  apply bind_inr in H as (kanji0 & w3 & Hinit & H).
  apply bind_inr in H as (dictEntries & w4 & _ & H).
  apply ret_inr in H as [H _]. inversion H; subst.
  apply KanjiData_init_symbol in Hinit. exact Hinit.
Qed.

(** What a record adds is nothing, or one record under its own symbol. *)
Lemma loaded_of_cases kanjiEntry :
  (reads_ok kanjiEntry = false /\ loaded_of kanjiEntry = ∅)
  \/ (reads_ok kanjiEntry = true
      /\ exists s kanji, loaded_of kanjiEntry = {[ s := kanji ]} /\ symbol kanji = JStr s).
Proof.
  unfold reads_ok, loaded_of.
  destruct (lookupKanjiSymbolsDict_try ∅ kanjiEntry quiet) as [[ex | d] w'] eqn:H;
    cbn [fst]; [now left | right].
  split; [reflexivity |].
  unfold lookupKanjiSymbolsDict_try in H.
  apply bind_inr in H as ([sym kanji] & w1 & Hread & H).
  apply read_symbol in Hread.
  destruct sym; try discriminate H. apply ret_inr in H as [<- _].
  exists s, kanji. split; [apply insert_empty | exact Hread].
Qed.

Lemma try_spec kanjiDict kanjiEntry w :
  fst (lookupKanjiSymbolsDict_try kanjiDict kanjiEntry w)
  = match fst (lookupKanjiSymbolsDict_try ∅ kanjiEntry quiet) with
    | inl ex => inl ex
    | inr new => inr (new ∪ kanjiDict)
    end.
Proof.
  unfold lookupKanjiSymbolsDict_try, bind.
  pose proof (blind_read kanjiEntry w quiet) as Hb.
  destruct (lookupKanjiSymbolsDict_read kanjiEntry w) as [[ex | [sym kanji]] w1],
    (lookupKanjiSymbolsDict_read kanjiEntry quiet) as [[ex' | [sym' kanji']] w1'];
    cbn [fst] in Hb; try discriminate Hb; inversion Hb; subst; [reflexivity |].
  destruct sym'; try reflexivity. cbn.
  now rewrite <- insert_union_l, (left_id_L ∅ (∪)).
Qed.

(** One turn of the loop adds what the record reads to, and never raises;
    after a record that is not read, the last line printed reports it. *)
Lemma body_spec kanjiDict kanjiEntry w :
  exists w',
    lookupKanjiSymbolsDict_body kanjiDict kanjiEntry w
    = (inr (loaded_of kanjiEntry ∪ kanjiDict), w')
    /\ (reads_ok kanjiEntry = false -> exists ex, last (printed w') = Some (FailedKanji ex)).
Proof.
  unfold lookupKanjiSymbolsDict_body, try_except.
  pose proof (try_spec kanjiDict kanjiEntry w) as Ht.
  unfold loaded_of, reads_ok.
  destruct (lookupKanjiSymbolsDict_try kanjiDict kanjiEntry w) as [[ex | d] w1];
    cbn [fst] in Ht;
    destruct (fst (lookupKanjiSymbolsDict_try ∅ kanjiEntry quiet)) as [ex' | new];
    try discriminate Ht; inversion Ht; subst.
  - eexists. split; [cbn; now rewrite (left_id_L ∅ (∪)) |].
    intros _. exists ex'. cbn. apply last_snoc.
  - eexists. split; [reflexivity | discriminate].
Qed.

Lemma load_loop_spec entries :
  forall kanjiDict w,
  exists w',
    for_each lookupKanjiSymbolsDict_body entries kanjiDict w
    = (inr (fold_left (fun d e => loaded_of e ∪ d) entries kanjiDict), w').
Proof.
  induction entries as [| e entries IH]; intros d w; cbn [for_each fold_left].
  - now exists w.
  - destruct (body_spec d e w) as (w1 & H1 & _).
    rewrite (bind_ok _ _ _ _ _ H1). apply IH.
Qed.

Lemma load_loop_filter entries :
  forall kanjiDict : gmap string RawKanji,
  fold_left (fun d e => loaded_of e ∪ d) (List.filter reads_ok entries) kanjiDict
  = fold_left (fun d e => loaded_of e ∪ d) entries kanjiDict.
Proof.
  induction entries as [| e entries IH]; intros d; [reflexivity |].
  cbn [List.filter fold_left].
  destruct (loaded_of_cases e) as [[Hr He] | [Hr _]]; rewrite Hr.
  - rewrite He, (left_id_L ∅ (∪)). apply IH.
  - cbn [fold_left]. apply IH.
Qed.

Lemma load_kanjiDict_spec entries w :
  exists w',
    load_kanjiDict (JArr entries) w
    = (inr (fold_left (fun d e => loaded_of e ∪ d) entries ∅), w').
Proof.
  unfold load_kanjiDict. cbn [PyJson.iter].
  rewrite (bind_ok _ _ w entries w) by reflexivity.
  apply load_loop_spec.
Qed.

(** Every record of the dictionary is filed under its own symbol. *)
Lemma load_loop_symbols entries :
  forall kanjiDict : gmap string RawKanji,
  map_Forall (fun s kanji => symbol kanji = JStr s) kanjiDict ->
  map_Forall (fun s kanji => symbol kanji = JStr s)
             (fold_left (fun d e => loaded_of e ∪ d) entries kanjiDict).
Proof.
  induction entries as [| e entries IH]; intros d Hd; [exact Hd |].
  cbn [fold_left]. apply IH. intros s kanji Hs.
  apply lookup_union_Some_raw in Hs as [Hs | [_ Hs]]; [| now apply Hd].
  destruct (loaded_of_cases e) as [[_ He] | [_ (s' & k' & He & Hsym)]];
    rewrite He in Hs.
  - now rewrite lookup_empty in Hs.
  - apply lookup_singleton_Some in Hs as [<- <-]. exact Hsym.
Qed.

(** A record that is not a sequence of four or five items is not read. *)
Lemma reads_ok_arity items :
  reads_ok (JArr items) = true -> length items = 4%nat \/ length items = 5%nat.
Proof.
  destruct items as [| a [| b [| c [| d [| e [| f items]]]]]]; intros H;
    try (left; reflexivity); try (right; reflexivity);
    vm_compute in H; discriminate H.
Qed.

Lemma KanjiData_init_str s w :
  s <> "" ->
  exists c,
    KanjiData_init (JStr s) w
    = (inr (mkKanji (JStr s) (Py.fmt_05x (Py.ord c)) (JArr []) (JArr []) (JArr []) []), w).
Proof.
  intros Hs. destruct s as [| b s]; [congruence |].
  destruct (str_chars_head b s) as (k & t & Hc & Hk & _).
  exists (String b k). unfold KanjiData_init, bind. cbn [PyJson.first]. rewrite Hc.
  cbn [ret PyJson.ord]. unfold Py.str_len.
  rewrite (str_chars_char (String b k)) by exact Hk. reflexivity.
Qed.

(** A record [[symbol, meanings, kun, on]] or
    [[symbol, meanings, kun, on, entries]] with a symbol that is a
    non-empty string and entries that are a list is read, whatever the
    entries are. *)
Lemma reads_ok_well_formed s m k o raw :
  s <> "" ->
  reads_ok (JArr [JStr s; m; k; o]) = true
  /\ reads_ok (JArr [JStr s; m; k; o; JArr raw]) = true.
Proof.
  intros Hs.
  destruct (KanjiData_init_str s quiet Hs) as [c Hinit].
  destruct (parseKanjiDictEntries_spec [] quiet) as [w4 Hnil].
  destruct (parseKanjiDictEntries_spec raw quiet) as [w5 Hraw].
  assert (H4 : exists kanji,
             lookupKanjiSymbolsDict_read (JArr [JStr s; m; k; o]) quiet
             = (inr (JStr s, kanji), w4)).
  { unfold lookupKanjiSymbolsDict_read.
    rewrite (bind_ok (PyJson.len _) _ quiet 4%nat quiet) by reflexivity.
    cbv beta. cbn [Nat.eqb].
    rewrite (bind_ok (bind (PyJson.unpack4 _) _) _ quiet (JStr s, m, k, o, JArr []) quiet)
      by reflexivity.
    cbv beta iota.
    rewrite (bind_ok (KanjiData_init _) _ _ _ _ Hinit).
    rewrite (bind_ok (parseKanjiDictEntries _) _ _ _ _ Hnil).
    eexists. reflexivity. }
  assert (H5 : exists kanji,
             lookupKanjiSymbolsDict_read (JArr [JStr s; m; k; o; JArr raw]) quiet
             = (inr (JStr s, kanji), w5)).
  { unfold lookupKanjiSymbolsDict_read.
    rewrite (bind_ok (PyJson.len _) _ quiet 5%nat quiet) by reflexivity.
    cbv beta. cbn [Nat.eqb].
    rewrite (bind_ok (PyJson.unpack5 _) _ quiet (JStr s, m, k, o, JArr raw) quiet)
      by reflexivity.
    cbv beta iota.
    rewrite (bind_ok (KanjiData_init _) _ _ _ _ Hinit).
    rewrite (bind_ok (parseKanjiDictEntries _) _ _ _ _ Hraw).
    eexists. reflexivity. }
  destruct H4 as [kanji4 H4], H5 as [kanji5 H5].
  unfold reads_ok, lookupKanjiSymbolsDict_try.
  rewrite (bind_ok _ _ _ _ _ H4), (bind_ok _ _ _ _ _ H5). split; reflexivity.
Qed.

(** A sub-entry that is kept is a pair. *)
Lemma entry_kept_pair items :
  entry_kept (JArr items) = true -> exists word translations, items = [word; translations].
Proof.
  destruct items as [| a [| b [| c items]]]; intros H;
    try (vm_compute in H; discriminate H).
  now exists a, b.
Qed.

Lemma entry_kept_translations word ts :
  entry_kept (JArr [word; JArr ts]) = match ts with [] => false | _ => true end.
Proof. now destruct ts. Qed.

Lemma load_kanjiDict_skip es1 bad es2 w :
  reads_ok bad = false ->
  fst (load_kanjiDict (JArr (es1 ++ bad :: es2)) w)
  = fst (load_kanjiDict (JArr (es1 ++ es2)) w).
Proof.
  intros Hbad.
  destruct (load_kanjiDict_spec (es1 ++ bad :: es2) w) as [w1 H1].
  destruct (load_kanjiDict_spec (es1 ++ es2) w) as [w2 H2].
  rewrite H1, H2. cbn [fst]. f_equal.
  rewrite <- load_loop_filter, <- (load_loop_filter (es1 ++ es2)).
  rewrite !List.filter_app. cbn [List.filter]. now rewrite Hbad.
Qed.

Lemma parseKanjiDictEntries_skip ds1 bad ds2 w :
  entry_kept bad = false ->
  fst (parseKanjiDictEntries (JArr (ds1 ++ bad :: ds2)) w)
  = fst (parseKanjiDictEntries (JArr (ds1 ++ ds2)) w).
Proof.
  intros Hbad.
  destruct (parseKanjiDictEntries_spec (ds1 ++ bad :: ds2) w) as [w1 H1].
  destruct (parseKanjiDictEntries_spec (ds1 ++ ds2) w) as [w2 H2].
  rewrite H1, H2. cbn [fst]. f_equal.
  rewrite !flat_map_app. cbn [flat_map]. now rewrite (parsed_of_dropped _ Hbad).
Qed.

(** C8. Loading a dictionary file never stops at a bad entry.  A record
    that is not read (one that raises: among them every record that is not a
    sequence of four or five items) prints a warning and leaves the
    dictionary as it was, so that the file loads as it does without that
    record; a record with a non-empty string as symbol and a list of
    entries is read whatever its entries are.  A dictionary sub-entry that
    is not kept (one that raises: among them every list that is not a pair;
    or one with an empty translation list) is left out, and the sub-entries
    parse as they do without it. *)
Theorem partial_failure_policy :
  (forall entries w,
     exists kanjiDict w',
       load_kanjiDict (JArr entries) w = (inr kanjiDict, w')
       /\ fst (load_kanjiDict (JArr (List.filter reads_ok entries)) w) = inr kanjiDict)
  /\ (forall es1 bad es2 w,
        reads_ok bad = false ->
        fst (load_kanjiDict (JArr (es1 ++ bad :: es2)) w)
        = fst (load_kanjiDict (JArr (es1 ++ es2)) w))
  /\ (forall kanjiDict bad w,
        reads_ok bad = false ->
        exists ex w',
          lookupKanjiSymbolsDict_body kanjiDict bad w = (inr kanjiDict, w')
          /\ last (printed w') = Some (FailedKanji ex))
  /\ (forall items,
        length items <> 4%nat -> length items <> 5%nat -> reads_ok (JArr items) = false)
  /\ (forall s m k o raw,
        s <> "" ->
        reads_ok (JArr [JStr s; m; k; o]) = true
        /\ reads_ok (JArr [JStr s; m; k; o; JArr raw]) = true)
  /\ (forall raw w,
        exists dictEntries w',
          parseKanjiDictEntries (JArr raw) w = (inr dictEntries, w')
          /\ fst (parseKanjiDictEntries (JArr (List.filter entry_kept raw)) w)
             = inr dictEntries
          /\ length dictEntries = length (List.filter entry_kept raw))
  /\ (forall ds1 bad ds2 w,
        entry_kept bad = false ->
        fst (parseKanjiDictEntries (JArr (ds1 ++ bad :: ds2)) w)
        = fst (parseKanjiDictEntries (JArr (ds1 ++ ds2)) w))
  /\ (forall items, length items <> 2%nat -> entry_kept (JArr items) = false)
  /\ (forall word ts,
        entry_kept (JArr [word; JArr ts]) = match ts with [] => false | _ => true end).
Proof.
  repeat apply conj.
  - intros entries w.
    destruct (load_kanjiDict_spec entries w) as [w1 H1].
    destruct (load_kanjiDict_spec (List.filter reads_ok entries) w) as [w2 H2].
    eexists _, w1. split; [exact H1 |]. rewrite H2. cbn [fst]. f_equal.
    apply load_loop_filter.
  - exact load_kanjiDict_skip.
  - intros d bad w Hbad.
    destruct (body_spec d bad w) as (w' & H & Hlast).
    destruct (Hlast Hbad) as [ex Hex]. exists ex, w'. split; [| exact Hex].
    rewrite H. destruct (loaded_of_cases bad) as [[_ He] | [Hr _]]; [| congruence].
    now rewrite He, (left_id_L ∅ (∪)).
  - intros items H4 H5. destruct (reads_ok (JArr items)) eqn:Hr; [| reflexivity].
    destruct (reads_ok_arity items Hr); contradiction.
  - exact reads_ok_well_formed.
  - intros raw w.
    destruct (parseKanjiDictEntries_spec raw w) as [w1 H1].
    destruct (parseKanjiDictEntries_spec (List.filter entry_kept raw) w) as [w2 H2].
    destruct (parsed_of_filter raw) as [Hf Hl].
    eexists _, w1. split; [exact H1 |]. rewrite H2. cbn [fst].
    split; [now rewrite Hf | exact Hl].
  - exact parseKanjiDictEntries_skip.
  - intros items H2. destruct (entry_kept (JArr items)) eqn:Hk; [| reflexivity].
    destruct (entry_kept_pair items Hk) as (a & b & ->). now contradict H2.
  - exact entry_kept_translations.
Qed.

(** ** Symbols missing from the dictionary *)

Lemma resolve_loop_spec (kanjiDict : gmap string RawKanji) kanjiSyms :
  forall kanjiData w,
  for_each (resolve_body kanjiDict) kanjiSyms kanjiData w
  = (inr (kanjiData ++ omap (fun s => kanjiDict !! s) kanjiSyms),
     mkWorld (printed w
                ++ map NotPresent
                     (List.filter (fun s => bool_decide (kanjiDict !! s = None)) kanjiSyms))
             (requested w)).
Proof.
  induction kanjiSyms as [| s syms IH]; intros acc [p r]; cbn [for_each omap list_omap].
  - cbn. now rewrite !app_nil_r.
  - unfold bind, resolve_body at 1. cbn [List.filter].
    destruct (kanjiDict !! s) as [kanji |] eqn:Hs.
    + rewrite bool_decide_eq_false_2 by discriminate. cbn [ret].
      rewrite IH. cbn [printed requested]. now rewrite <- app_assoc.
    + rewrite bool_decide_eq_true_2 by reflexivity. cbn [print ret bind].
      rewrite IH. cbn [printed requested map]. now rewrite <- app_assoc.
Qed.

(** C7. For a dictionary file that holds a list, [lookupKanjiSymbolsDict]
    returns, and does not raise: its result is the records of the requested
    symbols that are in the dictionary, in the order requested, so that a
    symbol that is not there is left out and the others are still resolved;
    for each missing symbol, in order, one warning is printed; and each
    record returned carries the symbol it was requested by, so that no
    record returned carries a missing symbol. *)
Theorem lookupKanjiSymbolsDict_absent (entries : list json) (kanjiSyms : list string)
    (w : World) :
  exists kanjiDict kanjiData w1 w2,
    load_kanjiDict (JArr entries) w = (inr kanjiDict, w1)
    /\ lookupKanjiSymbolsDict (JArr entries) kanjiSyms w = (inr kanjiData, w2)
    /\ kanjiData = omap (fun s => kanjiDict !! s) kanjiSyms
    /\ printed w2
       = printed w1
         ++ map NotPresent
              (List.filter (fun s => bool_decide (kanjiDict !! s = None)) kanjiSyms)
    /\ requested w2 = requested w1
    /\ map_Forall (fun s kanji => symbol kanji = JStr s) kanjiDict
    /\ (forall s,
          In s kanjiSyms -> kanjiDict !! s = None ->
          In (NotPresent s) (printed w2) /\ ~ In (JStr s) (map symbol kanjiData)).
Proof.
  destruct (load_kanjiDict_spec entries w) as [w1 H1].
  set (kanjiDict := fold_left _ entries ∅) in H1.
  assert (Hsym : map_Forall (fun s kanji => symbol kanji = JStr s) kanjiDict)
    by (apply load_loop_symbols, map_Forall_empty).
  eexists kanjiDict, _, w1, _. split; [exact H1 |].
  unfold lookupKanjiSymbolsDict. rewrite (bind_ok _ _ _ _ _ H1).
  rewrite resolve_loop_spec. cbn [app printed requested].
  split; [reflexivity |]. split; [reflexivity |]. split; [reflexivity |].
  split; [reflexivity |]. split; [exact Hsym |].
  intros s Hin Hnone. split.
  - apply in_or_app. right. apply in_map, filter_In.
    split; [exact Hin | now apply bool_decide_eq_true_2].
  - intros Hs. apply in_map_iff in Hs as (kanji & Hk & Hs).
    apply list_elem_of_In, list_elem_of_omap in Hs as (s' & _ & Hs').
    rewrite (Hsym _ _ Hs') in Hk. injection Hk as ->. congruence.
Qed.

(** ** The remote service *)

Lemma bind_inl {A B} (m : M A) (k : A -> M B) w ex w' :
  bind m k w = (inl ex, w') ->
  m w = (inl ex, w') \/ exists a w1, m w = (inr a, w1) /\ k a w1 = (inl ex, w').
Proof.
  unfold bind. destruct (m w) as [[ex1 | a] w1]; intros H.
  - left. now inversion H.
  - right. now exists a, w1.
Qed.

Lemma slice_to_at_most n v w v' w' :
  PyJson.slice_to n v w = (inr v', w') -> len_at_most n v' = true.
Proof.
  unfold len_at_most, Py.slice_to.
  destruct v; cbn; intros H; try discriminate H; inversion H; subst; cbn;
    apply Nat.leb_le.
  - etransitivity; [apply str_len_concat |].
    + apply Forall_take, str_chars_is_char.
    + rewrite length_take. lia.
  - rewrite length_take. lia.
Qed.

(** What one turn of the loop of [lookupKanjiSymbolsAPI] does when it does
    not raise: one request, for the symbol, and one record, for the
    symbol, with lists of at most three items. *)
Lemma api_body_returns net kanjis kanjisym w kanjis' w' :
  lookupKanjiSymbolsAPI_body net kanjis kanjisym w = (inr kanjis', w') ->
  w' = mkWorld (printed w) (requested w ++ [kanji_url kanjisym])
  /\ exists kanji,
       kanjis' = kanjis ++ [kanji] /\ symbol kanji = JStr kanjisym
       /\ lists_at_most 3 kanji.
Proof.
  unfold lookupKanjiSymbolsAPI_body. intros H.
  apply bind_inr in H as (kanji0 & w1 & Hinit & H).
  pose proof (kept _ _ _ _ (keeps_KanjiData_init _) Hinit) as ->.
  apply KanjiData_init_symbol in Hinit.
  apply bind_inr in H as (content & w2 & Hget & H).
  unfold requests_get_json in Hget. injection Hget as _ <-.
  apply bind_inr in H as (v1 & w3 & H1 & H).
  pose proof (kept _ _ _ _ (keeps_getitem _ _) H1) as ->.
  apply bind_inr in H as (kun & w4 & Hkun & H).
  pose proof (kept _ _ _ _ (keeps_slice_to _ _) Hkun) as ->.
  apply bind_inr in H as (v2 & w5 & H2 & H).
  pose proof (kept _ _ _ _ (keeps_getitem _ _) H2) as ->.
  apply bind_inr in H as (on & w6 & Hon & H).
  pose proof (kept _ _ _ _ (keeps_slice_to _ _) Hon) as ->.
  apply bind_inr in H as (v3 & w7 & H3 & H).
  pose proof (kept _ _ _ _ (keeps_getitem _ _) H3) as ->.
  apply bind_inr in H as (items & w8 & Hit & H).
  pose proof (kept _ _ _ _ (keeps_iter _) Hit) as ->.
  apply bind_inr in H as (kept_items & w9 & Hf & H).
  pose proof (kept _ _ _ _ (keeps_filter_meanings _) Hf) as ->.
  apply ret_inr in H as [<- <-].
  split; [reflexivity |]. eexists. split; [reflexivity |]. split; [exact Hinit |].
  repeat split; cbn.
  - exact (slice_to_at_most _ _ _ _ _ Hkun).
  - exact (slice_to_at_most _ _ _ _ _ Hon).
  - unfold len_at_most, Py.slice_to. cbn. apply Nat.leb_le. rewrite length_take. lia.
Qed.

(** When it raises, it has made no request or one, for the symbol. *)
Lemma api_body_raises net kanjis kanjisym w ex w' :
  lookupKanjiSymbolsAPI_body net kanjis kanjisym w = (inl ex, w') ->
  w' = w \/ w' = mkWorld (printed w) (requested w ++ [kanji_url kanjisym]).
Proof.
  unfold lookupKanjiSymbolsAPI_body. intros H.
  apply bind_inl in H as [H | (kanji0 & w1 & Hinit & H)].
  { left. exact (kept _ _ _ _ (keeps_KanjiData_init _) H). }
  pose proof (kept _ _ _ _ (keeps_KanjiData_init _) Hinit) as ->.
  right.
  apply bind_inl in H as [H | (content & w2 & Hget & H)].
  { unfold requests_get_json in H. now injection H as _ <-. }
  unfold requests_get_json in Hget. injection Hget as _ <-.
  refine (kept (A := list RawKanji) _ _ _ _ _ H).
  pose proof keeps_filter_meanings. keeps.
Qed.

Lemma world_eta w : mkWorld (printed w) (requested w) = w.
Proof. now destruct w. Qed.

Lemma api_loop_returns net kanjiSyms :
  forall kanjis w out w',
  for_each (lookupKanjiSymbolsAPI_body net) kanjiSyms kanjis w = (inr out, w') ->
  w' = mkWorld (printed w) (requested w ++ map kanji_url kanjiSyms)
  /\ exists new,
       out = kanjis ++ new /\ map symbol new = map JStr kanjiSyms
       /\ Forall (lists_at_most 3) new.
Proof.
  induction kanjiSyms as [| s syms IH]; intros acc w out w' H; cbn [for_each] in H.
  - apply ret_inr in H as [<- <-]. rewrite app_nil_r, world_eta.
    split; [reflexivity |]. exists []. now rewrite app_nil_r.
  - apply bind_inr in H as (acc1 & w1 & Hbody & H).
    apply api_body_returns in Hbody as (-> & kanji & -> & Hsym & Hlen).
    apply IH in H as (-> & new & -> & Hsyms & Hlens). cbn [printed requested map].
    split; [now rewrite <- app_assoc |].
    exists (kanji :: new). rewrite <- app_assoc. cbn [app map].
    repeat split; [now rewrite Hsym, Hsyms | now constructor].
Qed.

Lemma api_loop_requests net kanjiSyms :
  forall kanjis w r w',
  for_each (lookupKanjiSymbolsAPI_body net) kanjiSyms kanjis w = (r, w') ->
  exists n, (n <= length kanjiSyms)%nat
    /\ w' = mkWorld (printed w) (requested w ++ map kanji_url (firstn n kanjiSyms)).
Proof.
  induction kanjiSyms as [| s syms IH]; intros acc w r w' H; cbn [for_each] in H.
  - exists 0%nat. unfold ret in H. injection H as _ <-.
    cbn. now rewrite app_nil_r, world_eta.
  - destruct (lookupKanjiSymbolsAPI_body net acc s w) as [[ex | acc1] w1] eqn:Hbody.
    + rewrite (bind_raised _ _ _ _ _ Hbody) in H. injection H as _ <-.
      apply api_body_raises in Hbody as [-> | ->].
      * exists 0%nat. cbn. rewrite app_nil_r, world_eta. split; [lia | reflexivity].
      * exists 1%nat. cbn. split; [lia | reflexivity].
    + rewrite (bind_ok _ _ _ _ _ Hbody) in H.
      apply api_body_returns in Hbody as (-> & _).
      apply IH in H as (n & Hn & ->). exists (S n). cbn [printed requested length].
      split; [lia |]. cbn [firstn map]. now rewrite <- app_assoc.
Qed.

Lemma getitem_value v key w :
  PyJson.getitem v key w = (fst (PyJson.getitem v key quiet), w).
Proof. apply run_value; [apply keeps_getitem |]. destruct v; cbn; blind. Qed.

Lemma filter_meanings_strs mean w :
  Forall (fun x => exists s, x = JStr s) mean ->
  exists kept, filter_meanings mean w = (inr kept, w).
Proof.
  induction 1 as [| x mean [s ->] _ [kept IH]]; cbn [filter_meanings].
  - now exists [].
  - unfold bind. cbn [PyJson.contains ret].
    destruct (negb _); cbn [ret]; rewrite IH; now eexists.
Qed.

(** With a non-empty symbol and an answer in the expected form, one turn of
    the loop does not raise. *)
Lemma api_body_good (net : Network) kanjis kanjisym w content :
  kanjisym <> "" ->
  net (requested w) (kanji_url kanjisym) = inr content -> good_answer content ->
  exists out w', lookupKanjiSymbolsAPI_body net kanjis kanjisym w = (inr out, w').
Proof.
  intros Hs Hnet (kun & on & mean & Hkun & Hon & Hmean & Hstrs).
  destruct (KanjiData_init_str kanjisym w Hs) as [c Hinit].
  unfold lookupKanjiSymbolsAPI_body.
  rewrite (bind_ok _ _ _ _ _ Hinit).
  rewrite (bind_ok (requests_get_json _ _) _ w content
             (mkWorld (printed w) (requested w ++ [kanji_url kanjisym])))
    by (unfold requests_get_json; fold (kanji_url kanjisym); now rewrite Hnet).
  set (w1 := mkWorld _ _).
  rewrite (bind_ok (PyJson.getitem _ _) _ w1 (JArr kun) w1)
    by (now rewrite getitem_value, Hkun).
  rewrite (bind_ok (PyJson.slice_to _ _) _ w1 _ w1) by reflexivity.
  rewrite (bind_ok (PyJson.getitem _ _) _ w1 (JArr on) w1)
    by (now rewrite getitem_value, Hon).
  rewrite (bind_ok (PyJson.slice_to _ _) _ w1 _ w1) by reflexivity.
  rewrite (bind_ok (PyJson.getitem _ _) _ w1 (JArr mean) w1)
    by (now rewrite getitem_value, Hmean).
  rewrite (bind_ok (PyJson.iter _) _ w1 mean w1) by reflexivity.
  destruct (filter_meanings_strs mean w1 Hstrs) as [kept Hkept].
  rewrite (bind_ok _ _ _ _ _ Hkept). now eexists _, _.
Qed.

Lemma api_loop_good (net : Network) kanjiSyms :
  (forall reqs url, exists content, net reqs url = inr content /\ good_answer content) ->
  Forall (fun s => s <> "") kanjiSyms ->
  forall kanjis w,
  exists out w', for_each (lookupKanjiSymbolsAPI_body net) kanjiSyms kanjis w = (inr out, w').
Proof.
  intros Hnet. induction 1 as [| s syms Hs _ IH]; intros acc w; cbn [for_each].
  - now exists acc, w.
  - destruct (Hnet (requested w) (kanji_url s)) as (content & Hc & Hgood).
    destruct (api_body_good net acc s w content Hs Hc Hgood) as (acc1 & w1 & H1).
    rewrite (bind_ok _ _ _ _ _ H1). apply IH.
Qed.

(** C9. [lookupKanjiSymbolsAPI] makes its requests in the order of the
    symbols, one for each symbol it gets to, a symbol that comes twice being
    requested twice.  When it returns, it has made exactly one request per
    symbol and returns one record per symbol, in order, each with at most
    three kun-readings, on-readings and meanings.  It does return when every
    symbol is a non-empty string and every answer has the expected form. *)
Theorem lookupKanjiSymbolsAPI_requests (net : Network) (kanjiSyms : list string)
    (w : World) :
  (exists n, (n <= length kanjiSyms)%nat
     /\ snd (lookupKanjiSymbolsAPI net kanjiSyms w)
        = mkWorld (printed w) (requested w ++ map kanji_url (firstn n kanjiSyms)))
  /\ (forall kanjis w',
        lookupKanjiSymbolsAPI net kanjiSyms w = (inr kanjis, w') ->
        requested w' = requested w ++ map kanji_url kanjiSyms
        /\ map symbol kanjis = map JStr kanjiSyms
        /\ Forall (lists_at_most 3) kanjis)
  /\ ((forall reqs url, exists content, net reqs url = inr content /\ good_answer content) ->
      Forall (fun s => s <> "") kanjiSyms ->
      exists kanjis w', lookupKanjiSymbolsAPI net kanjiSyms w = (inr kanjis, w')).
Proof.
  unfold lookupKanjiSymbolsAPI. repeat apply conj.
  - destruct (for_each _ kanjiSyms [] w) as [r w'] eqn:H.
    exact (api_loop_requests _ _ _ _ _ _ H).
  - intros kanjis w' H.
    apply api_loop_returns in H as (-> & new & -> & Hsyms & Hlens).
    repeat split; assumption.
  - intros Hnet Hsyms. now apply api_loop_good.
Qed.

(** * The properties on sample data *)


Lemma show_dictionary_no_entries_sample :
  (Style.ShowDictionary ∈f Style.enable Style.ShowDictionary Style.BigKanji) = true
  /\ (Style.ShowDictionary ∈f Style.disable Style.ShowDictionary Style.BigKanji) = false
  /\ render_kanji_block Sample.env (Style.enable Style.ShowDictionary Style.BigKanji)
       Sample.page Sample.nichi (210 # 13)
     = render_kanji_block Sample.env (Style.disable Style.ShowDictionary Style.BigKanji)
         Sample.page Sample.nichi (210 # 13)
  /\ calc_kanji_block_height (Style.enable Style.ShowDictionary Style.BigKanji)
       Sample.nichi (210 # 13)
     = calc_kanji_block_height (Style.disable Style.ShowDictionary Style.BigKanji)
         Sample.nichi (210 # 13)
  /\ calc_kanji_block_height (Style.enable Style.ShowDictionary Style.BigKanji)
       Sample.nichi (210 # 13)
     == block_height_spec (Style.BigKanji ∈f Style.BigKanji) false 0 (210 # 13).
Proof.
  apply (show_dictionary_no_entries Sample.env Style.BigKanji Sample.page Sample.nichi
           (210 # 13)).
  reflexivity.
Defined.

Lemma render_dictionary_block_first_nine_sample :
  let entries := dictionary_entries Sample.iku in
  let column (i : nat) := firstn 3 (skipn (3 * i) entries) in
  let x (i : nat) := column_x (FPDF.l_margin Sample.page) (210 # 13) i in
  Py.slice_to 3 (grouper 3 entries)
  = [map Some (column 0%nat); map Some (column 1%nat); map Some (column 2%nat)]
  /\ column 0%nat ++ column 1%nat ++ column 2%nat = firstn 9 entries
  /\ render_dictionary_block Sample.page Sample.iku (210 # 13)
     = render_dictionary_block Sample.page
         (set_dictionary_entries (firstn 9 entries) Sample.iku) (210 # 13)
  /\ map op_xt (FPDF.ops (render_dictionary_block Sample.page Sample.iku (210 # 13)))
     = map op_xt (FPDF.ops Sample.page)
       ++ (FPDF.x Sample.page, "")
       :: flat_map (entry_cells (x 0%nat)) (column 0%nat)
       ++ flat_map (entry_cells (x 1%nat)) (column 1%nat)
       ++ flat_map (entry_cells (x 2%nat)) (column 2%nat).
Proof.
  apply (render_dictionary_block_first_nine Sample.page Sample.iku (210 # 13)).
  - simpl. lia.
  - unfold Qle. simpl. lia.
  - unfold Qle. simpl. lia.
Defined.

(** Five plain blocks fit on an A4 page; the sixth starts the second page. *)
Example renderDocument_six_records :
  FPDF.page (snd (renderDocument Sample.env Style.Nothing (repeat Sample.nichi 5) "out.pdf"))
  = 1%nat
  /\ FPDF.page
       (snd (renderDocument Sample.env Style.Nothing (repeat Sample.nichi 6) "out.pdf"))
     = 2%nat.
Proof. split; vm_compute; reflexivity. Qed.

(** The sample file: the number and the record of three items are skipped
    with a warning each, the bad sub-entry with a warning, the sub-entry
    without translations silently; the symbol that is not in the file is left
    out with a warning. *)
Example lookupKanjiSymbolsDict_sample :
  let '(result, w) := lookupKanjiSymbolsDict Sample.file ["行"; "年"; "本"] quiet in
  result
  = inr [mkKanji (JStr "行") "0884c" (JArr [JStr "い.く"]) (JArr [JStr "コウ"])
                 (JArr [JStr "going"]) [mkEntry (JStr "銀行") [JStr "bank"]];
         mkKanji (JStr "本") "0672c" (JArr [JStr "もと"]) (JArr [JStr "ホン"])
                 (JArr [JStr "book"]) []]
  /\ printed w
     = [FailedKanji TypeError; FailedKanji ValueError; FailedEntry TypeError;
        NotPresent "年"].
Proof. vm_compute. split; reflexivity. Qed.

(** A symbol asked for twice is requested twice and returned twice, with
    lists cut to three items and meanings that name a radical left out. *)
Example lookupKanjiSymbolsAPI_sample :
  let '(result, w) := lookupKanjiSymbolsAPI Sample.net ["木"; "木"] quiet in
  result
  = inr (repeat (mkKanji (JStr "木") "06728" (JArr [JStr "a"; JStr "b"; JStr "c"])
                         (JArr [JStr "e"]) (JArr [JStr "one"; JStr "two"; JStr "three"])
                         []) 2)
  /\ requested w
     = ["https://kanjiapi.dev/v1/kanji/木"; "https://kanjiapi.dev/v1/kanji/木"].
Proof. vm_compute. split; reflexivity. Qed.

(** The override of 本 replaces the meanings and nothing else. *)
Example applyOverrides_sample :
  applyOverrides [Sample.hon; Sample.nichi]
  = [set_meanings ["book"] Sample.hon; set_meanings ["day"; "japan"] Sample.nichi].
Proof. vm_compute. reflexivity. Qed.

(** The stroke diagram of 本 is the file [0672c]. *)
Example stroke_diagram_file_sample :
  match fst (KanjiData_init (JStr "本") quiet) with
  | inr kanji => stroke_diagram_file kanji
  | inl _ => ""
  end = "0672c".
Proof. reflexivity. Qed.
